(** * Book REST backend: list-view aggregation, auth gate and CRUD controllers

    A shallow embedding of the controllers of [controllers/booksController.js],
    the pre-validation hook of [routes/bookRoutes.js], the bearer-token
    middleware and the aggregation stages documented in [backend.md].

    The controllers are thin glue over three collaborators that are not part
    of the repository: the document store (MongoDB), the object-document
    mapper (Mongoose) and the token library (jsonwebtoken).  The store and
    the mapper are modelled by executable definitions that follow their
    documented behaviour on the fragment the controllers use; token
    verification is a parameter of the development. *)

From Stdlib Require Import String Ascii List ZArith NArith Bool Lia Permutation.
From Stdlib Require Import DecimalString.
From Stdlib Require Import Sorted FinFun.
Import ListNotations.
Local Open Scope string_scope.
Local Open Scope Z_scope.

(** ** Fallible computations: [try { ... } catch (e) { ... }] *)

Inductive result (A : Type) : Type :=
| Ok (a : A)
| Throw (msg : string).
Arguments Ok {A} a.
Arguments Throw {A} msg.

Definition bind {A B : Type} (r : result A) (k : A -> result B) : result B :=
  match r with
  | Ok a => k a
  | Throw msg => Throw msg
  end.

Notation "x <- e ;; k" := (bind e (fun x => k))
  (at level 61, e at next level, right associativity).

Fixpoint mapM {A B : Type} (f : A -> result B) (l : list A) : result (list B) :=
  match l with
  | [] => Ok []
  | a :: l' => b <- f a ;; bs <- mapM f l' ;; Ok (b :: bs)
  end.

(** ** JavaScript string helpers *)

Module JsString.

(** [s.split(sep)] for a one-character separator. *)
Fixpoint split (sep : ascii) (s : string) : list string :=
  match s with
  | EmptyString => [EmptyString]
  | String c rest =>
      if Ascii.eqb c sep then EmptyString :: split sep rest
      else match split sep rest with
           | [] => [String c EmptyString]
           | w :: ws => String c w :: ws
           end
  end.

(** [s.startsWith(p)] *)
Definition startsWith (p s : string) : bool := String.prefix p s.

(** [s.substring(n)]: what is left of [s] after its first [n] characters. *)
Fixpoint substringFrom (n : nat) (s : string) : string :=
  match n, s with
  | O, _ => s
  | S n', String _ rest => substringFrom n' rest
  | S _, EmptyString => EmptyString
  end.

(** The characters of [s] before the first occurrence of [sep]. *)
Fixpoint upTo (sep : ascii) (s : string) : string :=
  match s with
  | EmptyString => EmptyString
  | String c rest => if Ascii.eqb c sep then EmptyString else String c (upTo sep rest)
  end.

Fixpoint contains (sep : ascii) (s : string) : bool :=
  match s with
  | EmptyString => false
  | String c rest => Ascii.eqb c sep || contains sep rest
  end.

Definition isHexDigit (c : ascii) : bool :=
  let n := N_of_ascii c in
  ((48 <=? n) && (n <=? 57) || (97 <=? n) && (n <=? 102) || (65 <=? n) && (n <=? 70))%N.

Definition hexValue (c : ascii) : N :=
  let n := N_of_ascii c in
  (if n <=? 57 then n - 48 else if n <=? 70 then n - 55 else n - 87)%N.

Fixpoint allHex (s : string) : bool :=
  match s with
  | EmptyString => true
  | String c rest => isHexDigit c && allHex rest
  end.

Fixpoint parseHex (acc : N) (s : string) : N :=
  match s with
  | EmptyString => acc
  | String c rest => parseHex (16 * acc + hexValue c)%N rest
  end.

End JsString.

(** ** Documents

    BSON / JSON values.  A document is an ordered list of fields.  JavaScript's
    [undefined] and a missing field are both [None : option value]. *)

#[warnings="-register-all"]
Inductive value : Type :=
| VNull
| VBool (b : bool)
| VNum (n : Z)
| VStr (s : string)
| VOid (o : N)
| VDate (t : Z)
| VArr (xs : list value)
| VDoc (fields : list (string * value)).

Definition doc : Type := list (string * value).

Fixpoint value_eqb (a b : value) {struct a} : bool :=
  match a, b with
  | VNull, VNull => true
  | VBool x, VBool y => Bool.eqb x y
  | VNum x, VNum y => Z.eqb x y
  | VStr x, VStr y => String.eqb x y
  | VOid x, VOid y => N.eqb x y
  | VDate x, VDate y => Z.eqb x y
  | VArr xs, VArr ys =>
      (fix go (xs ys : list value) {struct xs} : bool :=
         match xs, ys with
         | [], [] => true
         | x :: xs', y :: ys' => value_eqb x y && go xs' ys'
         | _, _ => false
         end) xs ys
  | VDoc fs, VDoc gs =>
      (fix go (fs gs : list (string * value)) {struct fs} : bool :=
         match fs, gs with
         | [], [] => true
         | (k, x) :: fs', (l, y) :: gs' => String.eqb k l && value_eqb x y && go fs' gs'
         | _, _ => false
         end) fs gs
  | _, _ => false
  end.

Module Doc.

(** [d[k]] *)
Fixpoint lookup (k : string) (d : doc) : option value :=
  match d with
  | [] => None
  | (k', v) :: d' => if String.eqb k k' then Some v else lookup k d'
  end.

(** [delete d[k]] *)
Fixpoint remove (k : string) (d : doc) : doc :=
  match d with
  | [] => []
  | (k', v) :: d' => if String.eqb k k' then remove k d' else (k', v) :: remove k d'
  end.

(** [d[k] = v]: an existing field keeps its position, a new one goes last. *)
Fixpoint set (k : string) (v : value) (d : doc) : doc :=
  match d with
  | [] => [(k, v)]
  | (k', v') :: d' => if String.eqb k k' then (k, v) :: remove k d' else (k', v') :: set k v d'
  end.

(** Assigning [undefined]/missing drops the field. *)
Definition assign (k : string) (v : option value) (d : doc) : doc :=
  match v with
  | Some v => set k v d
  | None => remove k d
  end.

Definition keys (d : doc) : list string := map fst d.

Definition inb (k : string) (ks : list string) : bool := existsb (String.eqb k) ks.

(** Keep the fields named in [ks], in document order. *)
Definition restrict (ks : list string) (d : doc) : doc :=
  filter (fun kv => inb (fst kv) ks) d.

End Doc.

(** ** The document store (MongoDB), on the fragment the controllers use *)

Module Mongo.

(** A dotted field path, ['createdBy.name'], as its components. *)
Definition dotted (path : string) : list string := JsString.split "." path.

(** The values a query path reaches in a document.  A missing field yields
    one missing element.  An array met before the end of the path is
    traversed: each element that is a document is searched with the rest of
    the path, other elements yield nothing.  An array at the end of the path
    yields each of its elements and then the array itself. *)
Fixpoint elements (path : list string) (d : doc) : list (option value) :=
  match path with
  | [] => []
  | k :: rest =>
      match rest with
      | [] =>
          match Doc.lookup k d with
          | Some (VArr xs) => map Some xs ++ [Some (VArr xs)]
          | other => [other]
          end
      | _ :: _ =>
          match Doc.lookup k d with
          | Some (VDoc d') => elements rest d'
          | Some (VArr xs) =>
              flat_map (fun x => match x with
                                 | VDoc d' => elements rest d'
                                 | _ => []
                                 end) xs
          | _ => [None]
          end
      end
  end.

(** Equality against a query value: [null] also matches a missing field. *)
Definition matchesEq (q : value) (e : option value) : bool :=
  match e with
  | Some v => value_eqb q v
  | None => match q with VNull => true | _ => false end
  end.

(** BSON comparison order across types; within documents and within arrays
    the model does not order values. *)
Definition typeRank (v : option value) : Z :=
  match v with
  | None | Some VNull => 1
  | Some (VNum _) => 2
  | Some (VStr _) => 3
  | Some (VDoc _) => 4
  | Some (VArr _) => 5
  | Some (VOid _) => 6
  | Some (VBool _) => 7
  | Some (VDate _) => 8
  end.

Definition compareValue (a b : option value) : comparison :=
  match a, b with
  | Some (VNum x), Some (VNum y) => Z.compare x y
  | Some (VStr x), Some (VStr y) => String.compare x y
  | Some (VOid x), Some (VOid y) => N.compare x y
  | Some (VDate x), Some (VDate y) => Z.compare x y
  | Some (VBool x), Some (VBool y) =>
      match x, y with
      | false, true => Lt
      | true, false => Gt
      | _, _ => Eq
      end
  | _, _ => Z.compare (typeRank a) (typeRank b)
  end.

(** [$gt] / [$lt] compare only against values of the query value's type. *)
Definition matchesCmp (want : comparison) (q : value) (e : option value) : bool :=
  match e with
  | Some v =>
      (typeRank (Some v) =? typeRank (Some q)) &&
      match compareValue (Some v) (Some q), want with
      | Gt, Gt | Lt, Lt => true
      | _, _ => false
      end
  | None => false
  end.

(** Query filters: [{ path: q }], [$eq], [$ne], [$gt], [$lt], [$and], [$or].
    The empty filter [{}] is [CAnd []]. *)
#[warnings="-register-all"]
Inductive cond : Type :=
| CEq (path : string) (q : value)
| CNe (path : string) (q : value)
| CGt (path : string) (q : value)
| CLt (path : string) (q : value)
| CAnd (cs : list cond)
| COr (cs : list cond).

Fixpoint matches (c : cond) (d : doc) {struct c} : bool :=
  match c with
  | CEq p q => existsb (matchesEq q) (elements (dotted p) d)
  | CNe p q => negb (existsb (matchesEq q) (elements (dotted p) d))
  | CGt p q => existsb (matchesCmp Gt q) (elements (dotted p) d)
  | CLt p q => existsb (matchesCmp Lt q) (elements (dotted p) d)
  | CAnd cs => forallb (fun c' => matches c' d) cs
  | COr cs => existsb (fun c' => matches c' d) cs
  end.

(** The Node.js driver serialises a JavaScript [undefined] inside a command
    as BSON [null] (its [ignoreUndefined] option is off by default). *)
Definition serialize (v : option value) : value :=
  match v with
  | Some v => v
  | None => VNull
  end.

(** Aggregation expressions: a constant, a field reference ["$field"] and
    the array operator [{ $first: e }]. *)
Inductive expr : Type :=
| EConst (v : value)
| EField (name : string)
| EFirst (e : expr).

(** [None] is the missing value.  [$first] of an empty array is missing, of
    [null] or missing is [null], of anything but an array is an error. *)
Fixpoint evalExpr (e : expr) (d : doc) : result (option value) :=
  match e with
  | EConst v => Ok (Some v)
  | EField name => Ok (Doc.lookup name d)
  | EFirst e' =>
      v <- evalExpr e' d ;;
      match v with
      | Some (VArr []) => Ok None
      | Some (VArr (x :: _)) => Ok (Some x)
      | None | Some VNull => Ok (Some VNull)
      | Some _ => Throw "$first's argument must be an array"
      end
  end.

(** Pipeline stages.  [Lookup] is [$lookup] with [localField] and
    [foreignField] and a [pipeline] that runs on the joined documents. *)
#[warnings="-register-all"]
Inductive stage : Type :=
| Match (c : cond)
| Sort (key : string) (direction : Z)
| Skip (n : nat)
| Limit (n : nat)
| Project (include : list string)
| Set_ (field : string) (e : expr)
| Group (key : expr) (sums : list (string * expr))
| Lookup (from localField foreignField as_ : string) (pipeline : list stage).

(** [$project: { f: 1, ... }]: the listed fields, and [_id], which an
    inclusion projection keeps unless it is excluded by name. *)
Definition project (include : list string) (d : doc) : doc :=
  Doc.restrict ("_id" :: include) d.

(** [$sort]: a stable insertion sort on one key; [direction] is 1 or -1. *)
Definition sortsBefore (key : string) (direction : Z) (a b : doc) : bool :=
  match compareValue (Doc.lookup key a) (Doc.lookup key b) with
  | Eq => true
  | Lt => 0 <=? direction
  | Gt => direction <? 0
  end.

Fixpoint sortInsert (key : string) (direction : Z) (x : doc) (l : list doc) : list doc :=
  match l with
  | [] => [x]
  | y :: l' =>
      if sortsBefore key direction x y then x :: y :: l'
      else y :: sortInsert key direction x l'
  end.

Definition sort (key : string) (direction : Z) (l : list doc) : list doc :=
  fold_right (sortInsert key direction) [] l.

(** [$group] with [$sum] accumulators.  [$sum] adds numbers and skips every
    other value; a missing group key is [null].  Groups come out in the
    order in which their keys first occur (the server promises no order). *)
Definition numeric (v : option value) : Z :=
  match v with
  | Some (VNum n) => n
  | _ => 0
  end.

Fixpoint addAll (totals contrib : list Z) : list Z :=
  match totals, contrib with
  | t :: totals', c :: contrib' => (t + c) :: addAll totals' contrib'
  | _, _ => totals
  end.

Fixpoint groupInsert (k : value) (contrib : list Z) (groups : list (value * list Z))
  : list (value * list Z) :=
  match groups with
  | [] => [(k, contrib)]
  | (k', totals) :: rest =>
      if value_eqb k k' then (k', addAll totals contrib) :: rest
      else (k', totals) :: groupInsert k contrib rest
  end.

Fixpoint groupFold (key : expr) (sums : list (string * expr)) (input : list doc)
    (groups : list (value * list Z)) : result (list (value * list Z)) :=
  match input with
  | [] => Ok groups
  | d :: input' =>
      k <- evalExpr key d ;;
      contrib <- mapM (fun ne => v <- evalExpr (snd ne) d ;; Ok (numeric v)) sums ;;
      groupFold key sums input' (groupInsert (serialize k) contrib groups)
  end.

Definition groupDoc (sums : list (string * expr)) (g : value * list Z) : doc :=
  ("_id", fst g) :: combine (map fst sums) (map VNum (snd g)).

Definition group (key : expr) (sums : list (string * expr)) (input : list doc)
  : result (list doc) :=
  groups <- groupFold key sums input [] ;;
  Ok (map (groupDoc sums) groups).

(** The collections of the database; [$lookup] from a collection that does
    not exist joins nothing. *)
Record database : Type := mkDatabase {
  books : list doc;
  users : list doc
}.

Definition collection (db : database) (name : string) : list doc :=
  if String.eqb name "books" then books db
  else if String.eqb name "users" then users db
  else [].

(** [$lookup]'s equality match between the local and the foreign field. *)
Definition lookupMatches (foreignField : string) (local : option value) (f : doc) : bool :=
  match local with
  | Some (VArr xs) => existsb (fun x => matches (CEq foreignField x) f) xs
  | other => matches (CEq foreignField (serialize other)) f
  end.

Fixpoint runStage (db : database) (st : stage) (input : list doc) {struct st}
  : result (list doc) :=
  match st with
  | Match c => Ok (filter (matches c) input)
  | Sort key direction => Ok (sort key direction input)
  | Skip n => Ok (skipn n input)
  | Limit n => Ok (firstn n input)
  | Project include => Ok (map (project include) input)
  | Set_ field e =>
      mapM (fun d => v <- evalExpr e d ;; Ok (Doc.assign field v d)) input
  | Group key sums => group key sums input
  | Lookup from localField foreignField as_ pipeline =>
      mapM (fun d =>
              joined <-
                (fix run (p : list stage) (ds : list doc) {struct p} : result (list doc) :=
                   match p with
                   | [] => Ok ds
                   | s :: p' => ds' <- runStage db s ds ;; run p' ds'
                   end) pipeline
                  (filter (lookupMatches foreignField (Doc.lookup localField d))
                     (collection db from)) ;;
              Ok (Doc.set as_ (VArr (map VDoc joined)) d)) input
  end.

Fixpoint runPipeline (db : database) (p : list stage) (ds : list doc) : result (list doc) :=
  match p with
  | [] => Ok ds
  | s :: p' => ds' <- runStage db s ds ;; runPipeline db p' ds'
  end.

(** [db.<coll>.aggregate(pipeline)] *)
Definition aggregate (db : database) (coll : string) (p : list stage) : result (list doc) :=
  runPipeline db p (collection db coll).

(** [findOne(filter)]: the first matching document in storage order. *)
Definition findOne (c : cond) (coll : list doc) : option doc :=
  find (matches c) coll.

(** [deleteOne(filter)]: removes the first matching document and reports
    how many documents it removed. *)
Fixpoint deleteOne (c : cond) (coll : list doc) : Z * list doc :=
  match coll with
  | [] => (0, [])
  | d :: coll' =>
      if matches c d then (1, coll')
      else let (n, rest) := deleteOne c coll' in (n, d :: rest)
  end.

(** [findOneAndUpdate(filter, { $set: fields }, { returnDocument: 'after' })] *)
Definition setAll (fields : doc) (d : doc) : doc :=
  fold_left (fun acc kv => Doc.set (fst kv) (snd kv) acc) fields d.

Fixpoint findOneAndUpdate (c : cond) (fields : doc) (coll : list doc)
  : option doc * list doc :=
  match coll with
  | [] => (None, [])
  | d :: coll' =>
      if matches c d then (Some (setAll fields d), setAll fields d :: coll')
      else let (r, rest) := findOneAndUpdate c fields coll' in (r, d :: rest)
  end.

End Mongo.

(** ** The state of the server's collaborators

    The database, the generator of fresh [ObjectId]s and the clock that
    stamps [createdAt] / [updatedAt]. *)

Record store : Type := mkStore {
  db : Mongo.database;
  nextOid : N;
  clock : Z
}.

Definition withBooks (bs : list doc) (s : store) : store :=
  mkStore (Mongo.mkDatabase bs (Mongo.users (db s))) (nextOid s) (clock s).

(** ** The object-document mapper (Mongoose) and the [Book] model

    [bookschema]: [name] is a required [String], [createdBy] a required
    [ObjectId] referring to [User]; [timestamps: true]. *)

Module Mongoose.

(** A string is cast to an [ObjectId] when it is 24 hexadecimal digits. *)
Definition castObjectIdString (s : string) : option N :=
  if (String.length s =? 24)%nat && JsString.allHex s
  then Some (JsString.parseHex 0 s) else None.

Definition castError (kind path : string) : string :=
  "Cast to " ++ kind ++ " failed at path " ++ path.

(** Cast of a JSON value at an [ObjectId] path; [null] and [undefined] are
    left alone.  Only the string encoding is modelled. *)
Definition castObjectId (path : string) (v : option value) : result (option value) :=
  match v with
  | None => Ok None
  | Some VNull => Ok (Some VNull)
  | Some (VOid o) => Ok (Some (VOid o))
  | Some (VStr s) =>
      match castObjectIdString s with
      | Some o => Ok (Some (VOid o))
      | None => Throw (castError "ObjectId" path)
      end
  | Some _ => Throw (castError "ObjectId" path)
  end.

Definition decimal (n : Z) : string := NilZero.string_of_int (Z.to_int n).

(** Cast of a JSON value at a [String] path: numbers and booleans are
    printed, a document with a string [_id] stands for that string, arrays
    and other documents are refused. *)
Definition castString (path : string) (v : option value) : result (option value) :=
  match v with
  | None => Ok None
  | Some VNull => Ok (Some VNull)
  | Some (VStr s) => Ok (Some (VStr s))
  | Some (VNum n) => Ok (Some (VStr (decimal n)))
  | Some (VBool b) => Ok (Some (VStr (if b then "true" else "false")))
  | Some (VDoc d) =>
      match Doc.lookup "_id" d with
      | Some (VStr s) => Ok (Some (VStr s))
      | _ => Throw (castError "string" path)
      end
  | Some _ => Throw (castError "string" path)
  end.

(** The [required] validator: a required string must not be empty, a
    required [ObjectId] must not be [null]. *)
Definition requiredError (path : string) : string :=
  "Book validation failed: " ++ path ++ ": Path `" ++ path ++ "` is required.".

Definition validationError (path msg : string) : string :=
  "Book validation failed: " ++ path ++ ": " ++ msg.

Definition validName (r : result (option value)) : result value :=
  match r with
  | Throw msg => Throw (validationError "name" msg)
  | Ok (Some (VStr s)) =>
      if String.eqb s "" then Throw (requiredError "name") else Ok (VStr s)
  | Ok _ => Throw (requiredError "name")
  end.

Definition validCreatedBy (r : result (option value)) : result value :=
  match r with
  | Throw msg => Throw (validationError "createdBy" msg)
  | Ok (Some (VOid o)) => Ok (VOid o)
  | Ok _ => Throw (requiredError "createdBy")
  end.

(** [Book.create({ name, createdBy })]: cast, validate, assign [_id], the
    two timestamps and the version key, insert, return the document. *)
Definition Book_create (name createdBy : option value) (s : store)
  : result (doc * store) :=
  n <- validName (castString "name" name) ;;
  c <- validCreatedBy (castObjectId "createdBy" createdBy) ;;
  let book := [("_id", VOid (nextOid s)); ("name", n); ("createdBy", c);
               ("createdAt", VDate (clock s)); ("updatedAt", VDate (clock s));
               ("__v", VNum 0)] in
  Ok (book, mkStore (Mongo.mkDatabase (Mongo.books (db s) ++ [book])%list (Mongo.users (db s)))
              (N.succ (nextOid s)) (clock s)).

(** [Book.find()] *)
Definition Book_find (s : store) : result (list doc) :=
  Ok (filter (Mongo.matches (Mongo.CAnd [])) (Mongo.books (db s))).

(** The filter [{ _id: id }] after the schema cast of [id]. *)
Definition byId (id : string) : result Mongo.cond :=
  match castObjectIdString id with
  | Some o => Ok (Mongo.CEq "_id" (VOid o))
  | None => Throw (castError "ObjectId" "_id")
  end.

(** What [deleteOne] resolves to. *)
Definition deleteResult (n : Z) : doc :=
  [("acknowledged", VBool true); ("deletedCount", VNum n)].

(** [Book.deleteOne({ _id: id })] *)
Definition Book_deleteOne (id : string) (s : store) : result (doc * store) :=
  c <- byId id ;;
  let (n, rest) := Mongo.deleteOne c (Mongo.books (db s)) in
  Ok (deleteResult n, withBooks rest s).

(** The update document a request body is cast to: the schema is strict, so
    only [name] and [createdBy] are kept; [timestamps] adds [updatedAt].
    Bodies are plain field/value objects (no update operators). *)
Definition castUpdate (body : doc) (now : Z) : result doc :=
  n <- castString "name" (Doc.lookup "name" body) ;;
  c <- castObjectId "createdBy" (Doc.lookup "createdBy" body) ;;
  Ok ((match n with Some v => [("name", v)] | None => [] end) ++
      (match c with Some v => [("createdBy", v)] | None => [] end) ++
      [("updatedAt", VDate now)])%list.

(** [Book.findByIdAndUpdate(id, update, { new: true })]: both casts happen
    before the store is asked. *)
Definition Book_findByIdAndUpdate (id : string) (update : doc) (s : store)
  : result (option doc * store) :=
  c <- byId id ;;
  fields <- castUpdate update (clock s) ;;
  let (r, bs) := Mongo.findOneAndUpdate c fields (Mongo.books (db s)) in
  Ok (r, withBooks bs s).

(** [.populate([{ path, select }])]: a reference that resolves is replaced
    by the referred document, projected on [select]; one that does not
    resolve by [null]. *)
Definition populate (path : string) (select : list string) (from : list doc) (d : doc) : doc :=
  match Doc.lookup path d with
  | Some (VOid o) =>
      match Mongo.findOne (Mongo.CEq "_id" (VOid o)) from with
      | Some u => Doc.set path (VDoc (Mongo.project select u)) d
      | None => Doc.set path VNull d
      end
  | _ => d
  end.

(** [Book.findOne({ name }).populate([{ path: 'createdBy', select: 'name' }]).select('-name')] *)
Definition Book_findOne_byName (name : string) (s : store) : result (option doc) :=
  Ok (option_map
        (fun d => populate "createdBy" ["name"] (Mongo.users (db s)) (Doc.remove "name" d))
        (Mongo.findOne (Mongo.CEq "name" (VStr name)) (Mongo.books (db s)))).

End Mongoose.

(** ** Requests and what a handler does with them (Express) *)

(** The two response bodies the statements below name. *)
Definition deleted (n : Z) : value := VDoc (Mongoose.deleteResult n).

Definition notFound : value := VDoc [("message", VStr "Book not found")].

(** The parts of a request the handlers read.  [bookId] is
    [req.params.bookId], which the routes declared on [/:bookId] always
    set; [query] is [req.query] with each parameter given once, as a plain
    string; [body] is the object [express.json()] parsed. *)
Record request : Type := mkRequest {
  authorization : option string;   (* req.header("Authorization") *)
  bookId : string;                 (* req.params.bookId *)
  query : list (string * string);  (* req.query *)
  body : doc;                      (* req.body *)
  user : option value              (* req.user *)
}.

Inductive outcome : Type :=
| Respond (status : Z) (payload : value)   (* res.status(status).json(payload) *)
| Next (req : request)                     (* next() *)
| NextError (msg : string).                (* next(error) *)

Definition handler : Type := request -> store -> outcome * store.

Definition message (msg : string) : value := VDoc [("message", VStr msg)].

Fixpoint assoc (k : string) (l : list (string * string)) : option string :=
  match l with
  | [] => None
  | (k', v) :: l' => if String.eqb k k' then Some v else assoc k l'
  end.

(** ** controllers/booksController.js *)

Definition addBook : handler := fun req s =>
  let name := Doc.lookup "name" (body req) in
  let createdBy := Doc.lookup "createdBy" (body req) in
  match Mongoose.Book_create name createdBy s with
  | Ok (book, s') => (Respond 200 (VDoc book), s')
  | Throw e => (Respond 400 (message e), s)
  end.

Definition getBookList : handler := fun req s =>
  match Mongoose.Book_find s with
  | Ok book => (Respond 200 (VArr (map VDoc book)), s)
  | Throw e => (Respond 400 (message e), s)
  end.

Definition deleteBook : handler := fun req s =>
  match Mongoose.Book_deleteOne (bookId req) s with
  | Ok (book, s') => (Respond 200 (VDoc book), s')
  | Throw e => (Respond 400 (message e), s)
  end.

Definition updateBook : handler := fun req s =>
  let updatedData := body req in
  match Mongoose.Book_findByIdAndUpdate (bookId req) updatedData s with
  | Ok (None, s') => (Respond 404 (message "Book not found"), s')
  | Ok (Some book, s') => (Respond 200 (VDoc book), s')
  | Throw e => (Respond 400 (message e), s)
  end.

Definition updateOnlyOneBook : handler := fun req s =>
  match Mongoose.Book_findOne_byName (bookId req) s with
  | Ok None => (Respond 404 (message "Book not found"), s)
  | Ok (Some book) => (Respond 200 (VDoc book), s)
  | Throw e => (Respond 400 (message e), s)
  end.


(** The pipeline [listBook] hands to [Book.aggregate]; [name] is
    [req.query.name], [undefined] when the parameter is not given. *)
Definition listBookPipeline (name : option string) : list Mongo.stage :=
  [ Mongo.Lookup "users" "createdBy" "_id" "createdBy" [Mongo.Project ["name"]];
    Mongo.Match (Mongo.CEq "createdBy.name" (Mongo.serialize (option_map VStr name)));
    Mongo.Set_ "createdBy" (Mongo.EFirst (Mongo.EField "createdBy")) ].

Definition listBook : handler := fun req s =>
  let name := assoc "name" (query req) in
  match Mongo.aggregate (db s) "books" (listBookPipeline name) with
  | Ok book => (Respond 200 (VArr (map VDoc book)), s)
  | Throw e => (Respond 400 (message e), s)
  end.

(** ** routes/bookRoutes.js *)

(** [req.body.name === 'book1'] *)
Definition isBook1 (v : option value) : bool :=
  match v with
  | Some (VStr s) => String.eqb s "book1"
  | _ => false
  end.

Definition middle (req : request) (s : store) : outcome * store :=
  if isBook1 (Doc.lookup "name" (body req))
  then (NextError "invalid request", s)
  else (Next req, s).

(** [router.route('/add').post(middle, addBook)] *)
Definition chain (m h : handler) : handler := fun req s =>
  match m req s with
  | (Next req', s') => h req' s'
  | other => other
  end.

Definition postAdd : handler := chain middle addBook.


(** ** middlewares/authMiddleware.js (backend.md) *)

(** [req.user = decoded] *)
Definition attach (req : request) (decoded : value) : request :=
  mkRequest (authorization req) (bookId req) (query req) (body req) (Some decoded).

(** The request carries no header that starts with ["Bearer "]. *)
Definition noBearer (req : request) : Prop :=
  match authorization req with
  | None => True
  | Some h => JsString.startsWith "Bearer " h = false
  end.

Section AuthGate.

(** [jwt.verify(token, secret)]: the decoded payload, or an exception. *)
Variable jwt_verify : option string -> string -> result value.

Definition secretKey : string := "yourSecretKey".

(** [authHeader.split(" ")[1]] *)
Definition bearerToken (authHeader : string) : option string :=
  nth_error (JsString.split " " authHeader) 1.

(** The third component lists the calls made to [jwt.verify]. *)
Definition authMiddleware (req : request) (s : store)
  : outcome * store * list (option string * string) :=
  match authorization req with
  | None => (Respond 401 (message "Access denied. No token provided."), s, [])
  | Some authHeader =>
      if String.eqb authHeader "" || negb (JsString.startsWith "Bearer " authHeader)
      then (Respond 401 (message "Access denied. No token provided."), s, [])
      else
        let token := bearerToken authHeader in
        match jwt_verify token secretKey with
        | Ok decoded =>
            (Next (attach req decoded), s, [(token, secretKey)])
        | Throw _ => (Respond 400 (message "Invalid token."), s, [(token, secretKey)])
        end
  end.

End AuthGate.

(** ** Schema invariants of stored documents

    What the schemas and the store's unique index on [_id] guarantee for
    documents written through the models. *)

Definition oidOf (d : doc) : option N :=
  match Doc.lookup "_id" d with
  | Some (VOid o) => Some o
  | _ => None
  end.

Definition hasOid (o : N) (d : doc) : bool :=
  match oidOf d with
  | Some o' => N.eqb o o'
  | None => false
  end.

(** Every document has an [ObjectId] as [_id], and no two share it. *)
Fixpoint uniqueIds (coll : list doc) : bool :=
  match coll with
  | [] => true
  | d :: coll' =>
      match oidOf d with
      | Some o => negb (existsb (hasOid o) coll') && uniqueIds coll'
      | None => false
      end
  end.

Definition scalarField (k : string) (d : doc) : bool :=
  match Doc.lookup k d with
  | Some (VArr _) => false
  | _ => true
  end.

(** A user has an [ObjectId] and a name that is not a list. *)
Definition userOk (u : doc) : bool :=
  match oidOf u with
  | Some _ => scalarField "name" u
  | None => false
  end.

(** A book's name and its reference to a user are not lists. *)
Definition bookOk (b : doc) : bool :=
  scalarField "name" b && scalarField "createdBy" b.

Definition schemaOk (s : store) : bool :=
  forallb userOk (Mongo.users (db s)) && forallb bookOk (Mongo.books (db s)).

(** The user's name is a string. *)
Definition hasStringName (u : doc) : bool :=
  match Doc.lookup "name" u with
  | Some (VStr _) => true
  | _ => false
  end.

(** What the join stage leaves under [createdBy]: a sequence of documents
    whose names are not lists. *)
Definition joinedOk (d : doc) : Prop :=
  exists us, Doc.lookup "createdBy" d = Some (VArr (map VDoc us)) /\
             Forall (fun u => scalarField "name" u = true) us.

(** ** The invariant of the store

    Ids are unique, the generator has not yet issued the id it will issue
    next, and the documents fit the schemas. *)

Definition below (n : N) (d : doc) : bool :=
  match oidOf d with
  | Some o => (o <? n)%N
  | None => false
  end.

Definition storeOk (s : store) : bool :=
  schemaOk s && uniqueIds (Mongo.books (db s)) &&
  forallb (below (nextOid s)) (Mongo.books (db s)).


(** ** The list view in the words of the specification *)

Module ListView.

(** The user's id is the book's [createdBy] reference. *)
Definition refersTo (b u : doc) : bool :=
  match Doc.lookup "createdBy" b, Doc.lookup "_id" u with
  | Some r, Some i => value_eqb r i
  | _, _ => false
  end.

(** Join stage: the book gains, under [createdBy], the sequence of the
    users it refers to, each restricted to the fields [keep]. *)
Definition joinStage (keep : list string) (us : list doc) (b : doc) : doc :=
  Doc.set "createdBy"
    (VArr (map (fun u => VDoc (Doc.restrict keep u)) (filter (refersTo b) us))) b.

Definition joined (b : doc) : list value :=
  match Doc.lookup "createdBy" b with
  | Some (VArr xs) => xs
  | _ => []
  end.

(** Exact, case-sensitive equality of the joined user's name. *)
Definition hasName (n : string) (v : value) : bool :=
  match v with
  | VDoc u =>
      match Doc.lookup "name" u with
      | Some (VStr m) => String.eqb m n
      | _ => false
      end
  | _ => false
  end.

(** The joined user has no name: the field is missing or [null]. *)
Definition lacksName (v : value) : bool :=
  match v with
  | VDoc u =>
      match Doc.lookup "name" u with
      | None | Some VNull => true
      | Some _ => false
      end
  | _ => false
  end.

(** Filter stage, for a given filter value and for an absent one. *)
Definition filterStage (name : option string) (b : doc) : bool :=
  match name with
  | Some n => existsb (hasName n) (joined b)
  | None => existsb lacksName (joined b)
  end.

(** Collapse stage: the sequence gives way to its first element, or to
    nothing when it is empty. *)
Definition collapseStage (b : doc) : doc :=
  match joined b with
  | x :: _ => Doc.set "createdBy" x b
  | [] => Doc.remove "createdBy" b
  end.

Definition listWithRelationFilter (keep : list string) (us bs : list doc)
    (name : option string) : list doc :=
  map collapseStage (filter (filterStage name) (map (joinStage keep us) bs)).

End ListView.

(** [listBook] with the [$match] stage taken out of its pipeline. *)
Definition listBookPipelineUnfiltered : list Mongo.stage :=
  match listBookPipeline None with
  | [join; _; collapse] => [join; collapse]
  | p => p
  end.

Definition listBookUnfiltered : handler := fun req s =>
  match Mongo.aggregate (db s) "books" listBookPipelineUnfiltered with
  | Ok book => (Respond 200 (VArr (map VDoc book)), s)
  | Throw e => (Respond 400 (message e), s)
  end.

(** ** Read-one in the words of the specification *)

Module ReadOne.

Definition named (n : string) (b : doc) : bool :=
  match Doc.lookup "name" b with
  | Some (VStr m) => String.eqb m n
  | _ => false
  end.

(** The reference to a user gives way to that user, restricted to [keep],
    or to [null] when no such user is stored. *)
Definition inlineCreator (keep : list string) (us : list doc) (b : doc) : doc :=
  match Doc.lookup "createdBy" b with
  | Some (VOid o) =>
      match find (hasOid o) us with
      | Some u => Doc.set "createdBy" (VDoc (Doc.restrict keep u)) b
      | None => Doc.set "createdBy" VNull b
      end
  | _ => b
  end.

Definition readByName (keep : list string) (us bs : list doc) (n : string) : option doc :=
  option_map (fun b => inlineCreator keep us (Doc.remove "name" b)) (find (named n) bs).

End ReadOne.

(** ** The aggregation example of backend.md *)

Module Products.

Definition groupByPrice : Mongo.stage :=
  Mongo.Group (Mongo.EField "price")
    [("totalQuantity", Mongo.EField "quantity"); ("count", Mongo.EConst (VNum 1))].

Definition byTotalQuantityDesc : Mongo.stage := Mongo.Sort "totalQuantity" (-1).

Definition product (id price quantity : Z) : doc :=
  [("_id", VNum id); ("price", VNum price); ("quantity", VNum quantity)].

Definition priceGroup (price totalQuantity count : Z) : doc :=
  [("_id", VNum price); ("totalQuantity", VNum totalQuantity); ("count", VNum count)].

(** The sample collection and the pipeline of the section "Combining Stages". *)
Definition sampleData : list doc :=
  [product 1 10 5; product 2 20 2; product 3 10 8; product 4 15 3; product 5 20 7].

Definition samplePipeline : list Mongo.stage :=
  [Mongo.Match (Mongo.CGt "price" (VNum 10)); groupByPrice; byTotalQuantityDesc; Mongo.Limit 2].


End Products.

(** ** Concrete stores and requests *)

Module Example.

Definition alice : doc :=
  [("_id", VOid 1); ("name", VStr "alice"); ("username", VStr "al");
   ("email", VStr "alice@example.com"); ("password", VStr "$2b$10$hash")].

Definition bob : doc :=
  [("_id", VOid 2); ("name", VStr "bob"); ("username", VStr "bo");
   ("email", VStr "bob@example.com"); ("password", VStr "$2b$10$hsah")].

Definition dune : doc :=
  [("_id", VOid 10); ("name", VStr "dune"); ("createdBy", VOid 1);
   ("createdAt", VDate 1); ("updatedAt", VDate 1); ("__v", VNum 0)].

Definition emma : doc :=
  [("_id", VOid 11); ("name", VStr "emma"); ("createdBy", VOid 2);
   ("createdAt", VDate 2); ("updatedAt", VDate 2); ("__v", VNum 0)].

(** A book whose creator is no longer stored. *)
Definition orphan : doc :=
  [("_id", VOid 12); ("name", VStr "00000000000000000000000d"); ("createdBy", VOid 3);
   ("createdAt", VDate 3); ("updatedAt", VDate 3); ("__v", VNum 0)].

Definition library : store :=
  mkStore (Mongo.mkDatabase [dune; emma; orphan] [alice; bob]) 13 4.

Definition emptyRequest : request := mkRequest None "" [] [] None.

Definition get (id : string) : request := mkRequest None id [] [] None.

Definition listWith (q : list (string * string)) : request := mkRequest None "" q [] None.

Definition post (b : doc) : request := mkRequest None "" [] b None.

Definition withHeader (h : string) : request := mkRequest (Some h) "" [] [] None.

(** A stand-in verifier: it accepts the token ["good"] only. *)
Definition verifyGood (token : option string) (secret : string) : result value :=
  match token with
  | Some t =>
      if String.eqb t "good" && String.eqb secret "yourSecretKey"
      then Ok (VDoc [("id", VOid 1); ("email", VStr "alice@example.com")])
      else Throw "invalid signature"
  | None => Throw "jwt must be provided"
  end.

End Example.

(** * The rest of the code *)

(** ** What create refuses *)

(** A [name] the schema's [required] validator refuses after the cast:
    none, [null] or the empty string. *)
Definition blankName (v : option value) : Prop :=
  match v with
  | None | Some VNull => True
  | Some (VStr s) => s = ""
  | Some _ => False
  end.

(** A [createdBy] that is no [ObjectId]: none, [null], or a string that is
    not 24 hexadecimal digits. *)
Definition noReference (v : option value) : Prop :=
  match v with
  | None | Some VNull => True
  | Some (VStr s) => Mongoose.castObjectIdString s = None
  | Some _ => False
  end.


(** The update bodies the model of [findByIdAndUpdate] covers: field/value
    objects that name neither an update operator nor [_id] nor [__v], which
    are paths of the schema as well. *)
Definition plainBody (b : doc) : bool :=
  forallb (fun k => negb (String.eqb k "_id") && negb (String.eqb k "__v") &&
                    negb (JsString.startsWith "$" k)) (Doc.keys b).

(** ** Route tables (express.Router)

    A route is a path pattern, a verb and a handler; a request goes to the
    first route, in the order of declaration, whose pattern matches its path
    and that has a handler for its verb.  Paths are given by their segments
    below the mount point; static segments are compared without regard to
    case, as Express does unless told otherwise.  A request no route takes
    falls through the router. *)

Module Router.

Inductive method : Type := GET | POST | PUT | PATCH | DELETE.

Definition method_eqb (a b : method) : bool :=
  match a, b with
  | GET, GET | POST, POST | PUT, PUT | PATCH, PATCH | DELETE, DELETE => true
  | _, _ => false
  end.

Definition lowerAscii (c : ascii) : ascii :=
  let n := N_of_ascii c in
  if ((65 <=? n) && (n <=? 90))%N then ascii_of_N (n + 32) else c.

Fixpoint toLowerCase (s : string) : string :=
  match s with
  | EmptyString => EmptyString
  | String c rest => String (lowerAscii c) (toLowerCase rest)
  end.

Fixpoint sameSegments (a b : list string) : bool :=
  match a, b with
  | [], [] => true
  | x :: a', y :: b' => String.eqb (toLowerCase x) (toLowerCase y) && sameSegments a' b'
  | _, _ => false
  end.

(** ['/add'], ['/'], ['/list'] are static; ['/:bookId'] takes one segment
    as its parameter. *)
Inductive pattern : Type :=
| Static (segments : list string)
| Param.

Definition matchPattern (p : pattern) (path : list string) : option (option string) :=
  match p with
  | Static segments => if sameSegments segments path then Some None else None
  | Param =>
      match path with
      | [x] => Some (Some x)
      | _ => None
      end
  end.

Definition route : Type := pattern * method * (option string -> handler).

Fixpoint dispatch (routes : list route) (m : method) (path : list string) : option handler :=
  match routes with
  | [] => None
  | (pat, verb, h) :: rest =>
      match matchPattern pat path with
      | Some param => if method_eqb verb m then Some (h param) else dispatch rest m path
      | None => dispatch rest m path
      end
  end.

(** [req.params.bookId] *)
Definition withBookId (id : string) (req : request) : request :=
  mkRequest (authorization req) id (query req) (body req) (user req).

Definition onBookId (h : handler) : option string -> handler := fun param req s =>
  match param with
  | Some id => h (withBookId id req) s
  | None => h req s
  end.

(** routes/bookRoutes.js, lines 23 to 28. *)
Definition bookRoutes : list route :=
  [ (Static ["add"], POST, onBookId postAdd);
    (Static [], GET, onBookId getBookList);
    (Static ["list"], GET, onBookId listBook);
    (Param, DELETE, onBookId deleteBook);
    (Param, PATCH, onBookId updateBook);
    (Param, GET, onBookId updateOnlyOneBook) ].

Definition bookRouter : method -> list string -> option handler := dispatch bookRoutes.

End Router.

(** ** Sums over documents, for the accounts of [$group] *)

Definition sumOf (k : string) (ds : list doc) : Z :=
  fold_right (fun d acc => Mongo.numeric (Doc.lookup k d) + acc) 0 ds.

Definition total (i : nat) (groups : list (value * list Z)) : Z :=
  fold_right (fun g acc => nth i (snd g) 0 + acc) 0 groups.

(** A group under way in [groupByPrice]: a total and a count that is at
    least one. *)
Definition pairOfTotals (g : value * list Z) : Prop :=
  exists q c, snd g = [q; c] /\ 1 <= c.

Definition totalQuantity (g : doc) : Z := Mongo.numeric (Doc.lookup "totalQuantity" g).

(** ** controllers/productController.js and routes/productRoutes.js (backend.md) *)

Module ProductApi.

Definition getProduct : handler := fun req s =>
  (Respond 200 (message "Fetching all products"), s).

Definition addProduct : handler := fun req s =>
  (Respond 200 (message "Product added successfully"), s).

Definition updateProduct : handler := fun req s =>
  (Respond 200 (message "Product updated successfully"), s).

Definition deleteProduct : handler := fun req s =>
  (Respond 200 (message "Product deleted successfully"), s).

(** [id] is [req.params.id]. *)
Definition getProductDetail (id : string) : handler := fun req s =>
  (Respond 200 (message ("Fetching details for product " ++ id)), s).

Section Routes.

Variable jwt_verify : option string -> string -> result value.

(** [authMiddleware, h]: the handler runs when the middleware calls
    [next()], on the request the middleware passes on. *)
Definition protect (h : handler) : handler := fun req s =>
  match authMiddleware jwt_verify req s with
  | (Next req', s', _) => h req' s'
  | (other, s', _) => (other, s')
  end.

Definition detail (param : option string) : handler :=
  getProductDetail (match param with Some id => id | None => "undefined" end).

(** routes/productRoutes.js *)
Definition productRoutes : list Router.route :=
  [ (Router.Static [], Router.GET, fun _ => getProduct);
    (Router.Static ["add"], Router.POST, fun _ => protect addProduct);
    (Router.Static ["update"], Router.PUT, fun _ => protect updateProduct);
    (Router.Param, Router.DELETE, fun _ => protect deleteProduct);
    (Router.Param, Router.GET, detail) ].

Definition productRouter : Router.method -> list string -> option handler :=
  Router.dispatch productRoutes.

(** A handler that answers [msg] to a request with a token the
    verification accepts, and as the auth gate does to any other. *)
Definition guarded (h : handler) (msg : string) : Prop :=
  forall (req : request) (s : store),
    (noBearer req ->
     h req s = (Respond 401 (message "Access denied. No token provided."), s)) /\
    (forall t e,
       authorization req = Some t -> JsString.startsWith "Bearer " t = true ->
       jwt_verify (bearerToken t) secretKey = Throw e ->
       h req s = (Respond 400 (message "Invalid token."), s)) /\
    (forall t decoded,
       authorization req = Some t -> JsString.startsWith "Bearer " t = true ->
       jwt_verify (bearerToken t) secretKey = Ok decoded ->
       h req s = (Respond 200 (message msg), s)).

End Routes.

End ProductApi.

(** ** models/User.js and controllers/authController.js (backend.md)

    The password hashing, the e-mail syntax check and the token signing
    belong to libraries and are parameters.  Filters and bodies are plain
    values; query operators inside them are not modelled. *)

Module Users.

(** JavaScript truthiness of a JSON value, [undefined] being [None]. *)
Definition truthy (v : option value) : bool :=
  match v with
  | None | Some VNull => false
  | Some (VBool b) => b
  | Some (VNum n) => negb (n =? 0)
  | Some (VStr s) => negb (String.eqb s "")
  | Some _ => true
  end.

Definition withUsers (us : list doc) (s : store) : store :=
  mkStore (Mongo.mkDatabase (Mongo.books (db s)) us) (nextOid s) (clock s).

Section Auth.

Variable isEmail : string -> bool.                    (* validator.isEmail *)
Variable bcrypt_hash : string -> string.              (* bcrypt.hash with a fresh salt *)
Variable bcrypt_compare : string -> string -> bool.   (* bcrypt.compare *)
Variable jwt_sign : doc -> string -> string.          (* jwt.sign, expiresIn "1h" *)

(** The validators of one path of [userSchema], after the cast to
    [String]: [required] refuses a missing, [null] or empty value. *)
Definition validPath (minlength : nat) (maxlength : option nat) (check : string -> bool)
    (r : result (option value)) : option string :=
  match r with
  | Ok (Some (VStr s)) =>
      if negb (String.eqb s "") && (minlength <=? String.length s)%nat &&
         match maxlength with
         | Some n => (String.length s <=? n)%nat
         | None => true
         end && check s
      then Some s else None
  | _ => None
  end.

(** [new User({ name, username, email, password })] and [save()]: all
    paths are validated, the password is hashed by the [pre("save")] hook,
    the unique indexes on [username] and [email] are checked, the document
    is inserted. *)
Definition User_save (name username email password : option value) (s : store)
  : result store :=
  match validPath 0 None (fun _ => true) (Mongoose.castString "name" name),
        validPath 3 (Some 50%nat) (fun _ => true) (Mongoose.castString "username" username),
        validPath 0 None isEmail (Mongoose.castString "email" email),
        validPath 6 None (fun _ => true) (Mongoose.castString "password" password) with
  | Some n, Some u, Some e, Some p =>
      if existsb (fun d => Mongo.matches (Mongo.CEq "username" (VStr u)) d ||
                           Mongo.matches (Mongo.CEq "email" (VStr e)) d)
           (Mongo.users (db s))
      then Throw "E11000 duplicate key error"
      else
        Ok (mkStore
              (Mongo.mkDatabase (Mongo.books (db s))
                 (Mongo.users (db s) ++
                    [[("_id", VOid (nextOid s)); ("name", VStr n); ("username", VStr u);
                      ("email", VStr e); ("password", VStr (bcrypt_hash p));
                      ("__v", VNum 0)]])%list)
              (N.succ (nextOid s)) (clock s))
  | _, _, _, _ => Throw "User validation failed"
  end.

(** [User.findOne({ email })] *)
Definition User_findOne (email : option value) (s : store) : result (option doc) :=
  e <- Mongoose.castString "email" email ;;
  Ok (Mongo.findOne (Mongo.CEq "email" (Mongo.serialize e)) (Mongo.users (db s))).

Definition serverError (e : string) : value :=
  VDoc [("message", VStr "Server error"); ("error", VStr e)].

Definition registerUser : handler := fun req s =>
  let username := Doc.lookup "username" (body req) in
  let email := Doc.lookup "email" (body req) in
  let password := Doc.lookup "password" (body req) in
  if negb (truthy username) || negb (truthy email) || negb (truthy password)
  then (Respond 400 (message "All fields are required"), s)
  else
    match (existingUser <- User_findOne email s ;;
           match existingUser with
           | Some _ => Ok (Respond 400 (message "Email is already in use"), s)
           | None =>
               s' <- User_save None username email password s ;;
               Ok (Respond 201 (message "User registered successfully"), s')
           end) with
    | Ok r => r
    | Throw e => (Respond 500 (serverError e), s)
    end.





End Auth.


End Users.

(** ** More concrete requests, and stand-ins for the libraries *)

Module Sample.

Definition ulysses : request :=
  Example.post [("name", VStr "ulysses"); ("createdBy", VStr "000000000000000000000001");
                ("price", VNum 12)].

Definition ulyssesBook : doc :=
  [("_id", VOid 13); ("name", VStr "ulysses"); ("createdBy", VOid 1);
   ("createdAt", VDate 4); ("updatedAt", VDate 4); ("__v", VNum 0)].

Definition afterCreate : store := snd (addBook ulysses Example.library).

(** [PATCH /books/00000000000000000000000a] with a new name. *)
Definition rename : request :=
  mkRequest None "00000000000000000000000a" [] [("name", VStr "book1"); ("pages", VNum 3)] None.


Definition register : request :=
  Example.post [("username", VStr "carol"); ("name", VStr "Carol");
                ("email", VStr "carol@example.com"); ("password", VStr "123456")].

Definition hashPlain (p : string) : string := "$2b$10$" ++ p.



Definition hasAt (s : string) : bool := JsString.contains "@" s.

End Sample.

(** * Verification *)

(** ** Strings *)

Lemma split_head (sep : ascii) (s : string) :
  exists ws, JsString.split sep s = JsString.upTo sep s :: ws.
Proof.
  induction s as [| c rest [ws IH]]; simpl.
  - now exists [].
  - destruct (Ascii.eqb c sep).
    + now exists (JsString.split sep rest).
    + rewrite IH. now exists ws.
Qed.

Lemma upTo_whole (sep : ascii) (s : string) :
  JsString.upTo sep s = s <-> JsString.contains sep s = false.
Proof.
  induction s as [| c rest IH]; simpl.
  - tauto.
  - destruct (Ascii.eqb c sep); simpl.
    + split; discriminate.
    + rewrite <- IH. split; [intros E; now injection E | intros E; now rewrite E].
Qed.

Lemma startsWith_decompose (p s : string) :
  JsString.startsWith p s = true -> s = p ++ JsString.substringFrom (String.length p) s.
Proof.
  unfold JsString.startsWith. revert s.
  induction p as [| a p IH]; intros s H.
  - now destruct s.
  - destruct s as [| b s]; simpl in H; [discriminate |].
    destruct (ascii_dec a b) as [-> | _]; [| discriminate].
    simpl. f_equal. now apply IH.
Qed.

Lemma bearerToken_prefixed (r : string) :
  bearerToken ("Bearer " ++ r) = Some (JsString.upTo " " r).
Proof.
  unfold bearerToken. simpl.
  destruct (split_head " " r) as [ws ->]. reflexivity.
Qed.

Lemma bearerToken_startsWith (h : string) :
  JsString.startsWith "Bearer " h = true ->
  bearerToken h = Some (JsString.upTo " " (JsString.substringFrom 7 h)).
Proof.
  intros H. pose proof (startsWith_decompose _ _ H) as E. simpl String.length in E.
  rewrite E at 1. apply bearerToken_prefixed.
Qed.

Lemma startsWith_nonempty (h : string) :
  JsString.startsWith "Bearer " h = true -> String.eqb h "" = false.
Proof. destruct h; [discriminate | reflexivity]. Qed.

(** ** Values *)

Lemma value_nested_ind (P : value -> Prop) :
  P VNull ->
  (forall b, P (VBool b)) ->
  (forall n, P (VNum n)) ->
  (forall s, P (VStr s)) ->
  (forall o, P (VOid o)) ->
  (forall t, P (VDate t)) ->
  (forall xs, Forall P xs -> P (VArr xs)) ->
  (forall fs, Forall (fun kv => P (snd kv)) fs -> P (VDoc fs)) ->
  forall v, P v.
Proof.
  intros HN HB HZ HS HO HD HA HF.
  fix IH 1. intros [| b | n | s | o | t | xs | fs];
    [exact HN | apply HB | apply HZ | apply HS | apply HO | apply HD | |].
  - apply HA. induction xs as [| x xs IHxs]; constructor; [apply IH | exact IHxs].
  - apply HF. induction fs as [| [k x] fs IHfs]; constructor; [apply IH | exact IHfs].
Qed.

Lemma value_eqb_eq (a b : value) : value_eqb a b = true <-> a = b.
Proof.
  revert b. induction a as [| x | x | x | x | x | xs IH | fs IH] using value_nested_ind;
    intros [| y | y | y | y | y | ys | gs]; cbn [value_eqb];
    try (split; [discriminate | discriminate]); try (split; [reflexivity | reflexivity]).
  - rewrite Bool.eqb_true_iff. split; congruence.
  - rewrite Z.eqb_eq. split; congruence.
  - rewrite String.eqb_eq. split; congruence.
  - rewrite N.eqb_eq. split; congruence.
  - rewrite Z.eqb_eq. split; congruence.
  - revert ys. induction IH as [| x xs Hx _ IHxs]; intros [| y ys];
      try (split; [discriminate | discriminate]); try (split; [reflexivity | reflexivity]).
    rewrite andb_true_iff, Hx. specialize (IHxs ys). rewrite IHxs.
    split; [intros [-> [= ->]]; reflexivity | intros [= -> ->]; split; reflexivity].
  - revert gs. induction IH as [| [k x] fs Hx _ IHfs]; intros [| [l y] gs];
      try (split; [discriminate | discriminate]); try (split; [reflexivity | reflexivity]).
    simpl in Hx. rewrite !andb_true_iff, Hx, String.eqb_eq. specialize (IHfs gs). rewrite IHfs.
    split; [intros [[-> ->] [= ->]]; reflexivity | intros [= -> -> ->]; repeat split; reflexivity].
Qed.

Lemma refersTo_spec (b u : doc) :
  ListView.refersTo b u = true <->
  exists r, Doc.lookup "createdBy" b = Some r /\ Doc.lookup "_id" u = Some r.
Proof.
  unfold ListView.refersTo.
  destruct (Doc.lookup "createdBy" b) as [r |], (Doc.lookup "_id" u) as [i |].
  - rewrite value_eqb_eq. split; [intros ->; now exists i | now intros (x & [= ->] & [= ->])].
  - split; [discriminate | now intros (x & _ & [=])].
  - split; [discriminate | now intros (x & [=] & _)].
  - split; [discriminate | now intros (x & [=] & _)].
Qed.

(** ** The auth gate *)

Section AuthGateFacts.

Variable jwt_verify : option string -> string -> result value.


(** C4, as the code has it.  For a header that starts with ["Bearer "], the
    token handed to the verification is what follows the prefix up to the
    next space, or up to the end of the header when no space follows.  It
    is the whole remainder exactly when the remainder has no space. *)
Theorem authMiddleware_verifies_first_segment (req : request) (s : store) (h : string) :
  authorization req = Some h ->
  JsString.startsWith "Bearer " h = true ->
  snd (authMiddleware jwt_verify req s) =
    [(Some (JsString.upTo " " (JsString.substringFrom 7 h)), secretKey)] /\
  (JsString.upTo " " (JsString.substringFrom 7 h) = JsString.substringFrom 7 h <->
   JsString.contains " " (JsString.substringFrom 7 h) = false).
Proof.
  intros Hh P. split; [| apply upTo_whole].
  unfold authMiddleware. rewrite Hh, P, (startsWith_nonempty _ P). simpl.
  rewrite (bearerToken_startsWith _ P).
  now destruct (jwt_verify _ secretKey).
Qed.

End AuthGateFacts.


(** The prefix is compared as it is written: another case, or no space,
    is no bearer header; neither is the empty header. *)
Lemma authMiddleware_prefix_examples :
  noBearer (Example.withHeader "bearer good") /\
  noBearer (Example.withHeader "Bearer") /\
  noBearer (Example.withHeader "") /\
  authMiddleware Example.verifyGood (Example.withHeader "") Example.library =
    (Respond 401 (message "Access denied. No token provided."), Example.library, []).
Proof. repeat split. Qed.

(** C4 fails as stated: after ["Bearer a b"] the token verified is ["a"],
    the substring after the prefix is ["a b"]. *)
Lemma authMiddleware_token_not_substring :
  authorization (Example.withHeader "Bearer a b") = Some "Bearer a b" /\
  JsString.startsWith "Bearer " "Bearer a b" = true /\
  JsString.substringFrom 7 "Bearer a b" = "a b" /\
  snd (authMiddleware Example.verifyGood (Example.withHeader "Bearer a b") Example.library)
    = [(Some "a", "yourSecretKey")] /\
  snd (authMiddleware Example.verifyGood (Example.withHeader "Bearer a b") Example.library)
    <> [(Some (JsString.substringFrom 7 "Bearer a b"), secretKey)].
Proof.
  repeat split; try reflexivity. discriminate.
Qed.

Lemma authMiddleware_verifies_first_segment_witness :
  snd (authMiddleware Example.verifyGood (Example.withHeader "Bearer good") Example.library) =
    [(Some (JsString.upTo " " (JsString.substringFrom 7 "Bearer good")), secretKey)] /\
  (JsString.upTo " " (JsString.substringFrom 7 "Bearer good") =
     JsString.substringFrom 7 "Bearer good" <->
   JsString.contains " " (JsString.substringFrom 7 "Bearer good") = false).
Proof.
  apply (authMiddleware_verifies_first_segment Example.verifyGood
           (Example.withHeader "Bearer good") Example.library "Bearer good");
    reflexivity.
Defined.

(** ** The pre-validation hook *)

(** C5.  On [POST /books/add] a body whose [name] is the string ["book1"]
    is refused with an error before the controller runs; with any other
    [name], or none, the request reaches [addBook] unchanged. *)
Theorem middle_rejects_book1_only (req : request) (s : store) :
  (Doc.lookup "name" (body req) = Some (VStr "book1") ->
   middle req s = (NextError "invalid request", s) /\
   postAdd req s = (NextError "invalid request", s)) /\
  (Doc.lookup "name" (body req) <> Some (VStr "book1") ->
   middle req s = (Next req, s) /\
   postAdd req s = addBook req s).
Proof.
  unfold postAdd, chain, middle. split.
  - intros ->. simpl. split; reflexivity.
  - intros H.
    assert (E : isBook1 (Doc.lookup "name" (body req)) = false).
    { destruct (Doc.lookup "name" (body req)) as [[| | | n | | | |] |]; try reflexivity.
      simpl. destruct (String.eqb_spec n "book1") as [-> | _]; [now elim H | reflexivity]. }
    rewrite E. split; reflexivity.
Qed.

Lemma middle_rejects_book1_only_witness :
  postAdd (Example.post [("name", VStr "book1"); ("createdBy", VStr "000000000000000000000001")])
      Example.library = (NextError "invalid request", Example.library) /\
  postAdd (Example.post [("name", VStr "Book1"); ("createdBy", VStr "000000000000000000000001")])
      Example.library =
    addBook (Example.post [("name", VStr "Book1"); ("createdBy", VStr "000000000000000000000001")])
      Example.library.
Proof.
  split.
  - apply (proj1 (middle_rejects_book1_only _ Example.library)). reflexivity.
  - apply (proj2 (middle_rejects_book1_only _ Example.library)). discriminate.
Defined.

(** ** Create *)

(** C10.  [addBook] reads nothing of the body but [name] and [createdBy]:
    two requests that agree on these two fields get the same answer and
    leave the same store.  A created book consists of its [_id], the cast
    [name] and [createdBy], the two timestamps and the version key; it is
    what is stored, after the books already there. *)
Theorem addBook_uses_name_and_createdBy (req1 req2 : request) (s : store) :
  (Doc.lookup "name" (body req1) = Doc.lookup "name" (body req2) ->
   Doc.lookup "createdBy" (body req1) = Doc.lookup "createdBy" (body req2) ->
   addBook req1 s = addBook req2 s) /\
  (forall book s',
     addBook req1 s = (Respond 200 (VDoc book), s') ->
     exists n c,
       Mongoose.castString "name" (Doc.lookup "name" (body req1)) = Ok (Some n) /\
       Mongoose.castObjectId "createdBy" (Doc.lookup "createdBy" (body req1)) = Ok (Some c) /\
       book = [("_id", VOid (nextOid s)); ("name", n); ("createdBy", c);
               ("createdAt", VDate (clock s)); ("updatedAt", VDate (clock s));
               ("__v", VNum 0)] /\
       Mongo.books (db s') = (Mongo.books (db s) ++ [book])%list /\
       Mongo.users (db s') = Mongo.users (db s)).
Proof.
  split.
  - unfold addBook. now intros -> ->.
  - unfold addBook, Mongoose.Book_create. intros book s'.
    destruct (Mongoose.castString "name" _) as [[[| | | n | | | |] |] |]; simpl;
      try discriminate.
    destruct (String.eqb n ""); simpl; try discriminate.
    destruct (Mongoose.castObjectId "createdBy" _) as [[[| | | | o | | |] |] |]; simpl;
      try discriminate.
    intros [= <- <-]. exists (VStr n), (VOid o). simpl. repeat split.
Qed.

Lemma addBook_uses_name_and_createdBy_witness :
  addBook (Example.post [("name", VStr "ulysses"); ("createdBy", VStr "000000000000000000000001");
                         ("price", VNum 12); ("_id", VStr "00000000000000000000000a")])
    Example.library =
  addBook (Example.post [("createdBy", VStr "000000000000000000000001"); ("name", VStr "ulysses")])
    Example.library.
Proof.
  apply (proj1 (addBook_uses_name_and_createdBy _ _ Example.library)); reflexivity.
Defined.

(** ** Documents and filters *)

Lemma matches_byId (o o' : N) (d : doc) :
  oidOf d = Some o' -> Mongo.matches (Mongo.CEq "_id" (VOid o)) d = hasOid o d.
Proof.
  unfold hasOid. intros H. rewrite H.
  unfold oidOf in H. cbn.
  destruct (Doc.lookup "_id" d) as [[| | | | x | | |] |]; try discriminate.
  injection H as ->. cbn. now rewrite orb_false_r.
Qed.

Lemma uniqueIds_oid (c : list doc) (d : doc) :
  uniqueIds c = true -> In d c -> exists o, oidOf d = Some o.
Proof.
  induction c as [| x c IH]; simpl; [tauto |].
  destruct (oidOf x) as [o |] eqn:E; [| discriminate].
  intros H [<- | Hin].
  - now exists o.
  - apply andb_prop in H. now apply IH.
Qed.

Lemma uniqueIds_tail (d : doc) (c : list doc) :
  uniqueIds (d :: c) = true -> uniqueIds c = true.
Proof.
  simpl. destruct (oidOf d); [| discriminate]. intros H. now apply andb_prop in H.
Qed.


Lemma withBooks_twice (bs : list doc) (s : store) :
  withBooks bs (withBooks bs s) = withBooks bs s.
Proof. reflexivity. Qed.


(** ** Delete and update by id *)






(** ** Read one *)

Lemma find_ext_in {A : Type} (f g : A -> bool) (l : list A) :
  (forall a, In a l -> f a = g a) -> find f l = find g l.
Proof.
  induction l as [| a l IH]; intros H; [reflexivity |].
  simpl. rewrite (H a (or_introl eq_refl)).
  destruct (g a); [reflexivity |]. apply IH. intros x Hx. apply H. now right.
Qed.

Lemma find_none_existsb {A : Type} (f : A -> bool) (l : list A) :
  find f l = None <-> existsb f l = false.
Proof.
  induction l as [| a l IH]; simpl; [tauto |].
  destruct (f a); simpl; [split; discriminate | exact IH].
Qed.

Lemma matches_name (n : string) (b : doc) :
  scalarField "name" b = true ->
  Mongo.matches (Mongo.CEq "name" (VStr n)) b = ReadOne.named n b.
Proof.
  unfold scalarField, ReadOne.named. cbn.
  destruct (Doc.lookup "name" b) as [[| | | m | | | |] |]; try discriminate; try reflexivity.
  intros _. cbn. rewrite orb_false_r. apply String.eqb_sym.
Qed.

Lemma bookOk_name (bs : list doc) (b : doc) :
  forallb bookOk bs = true -> In b bs -> scalarField "name" b = true.
Proof.
  intros H Hin. rewrite forallb_forall in H. specialize (H b Hin).
  unfold bookOk in H. now apply andb_prop in H.
Qed.

Lemma findOne_named (n : string) (bs : list doc) :
  forallb bookOk bs = true ->
  Mongo.findOne (Mongo.CEq "name" (VStr n)) bs = find (ReadOne.named n) bs.
Proof.
  intros H. apply find_ext_in. intros b Hin. apply matches_name.
  now apply (bookOk_name bs).
Qed.

(** ** Ids that are not in the store *)




(** ** Fields of a document *)

Lemma lookup_remove_eq (k : string) (d : doc) : Doc.lookup k (Doc.remove k d) = None.
Proof.
  induction d as [| [k' v] d IH]; simpl; [reflexivity |].
  destruct (String.eqb k k') eqn:E; [exact IH |]. simpl. now rewrite E.
Qed.

Lemma lookup_remove_neq (k k' : string) (d : doc) :
  k <> k' -> Doc.lookup k (Doc.remove k' d) = Doc.lookup k d.
Proof.
  intros N. induction d as [| [x v] d IH]; simpl; [reflexivity |].
  destruct (String.eqb_spec k' x) as [<- | Nx].
  - rewrite IH. destruct (String.eqb_spec k k'); [contradiction | reflexivity].
  - simpl. now rewrite IH.
Qed.

Lemma lookup_set_eq (k : string) (v : value) (d : doc) :
  Doc.lookup k (Doc.set k v d) = Some v.
Proof.
  induction d as [| [k' v'] d IH]; simpl.
  - now rewrite String.eqb_refl.
  - destruct (String.eqb k k') eqn:E; simpl.
    + now rewrite String.eqb_refl.
    + now rewrite E.
Qed.

Lemma lookup_set_neq (k k' : string) (v : value) (d : doc) :
  k <> k' -> Doc.lookup k (Doc.set k' v d) = Doc.lookup k d.
Proof.
  intros N. induction d as [| [x w] d IH]; simpl.
  - destruct (String.eqb_spec k k'); [contradiction | reflexivity].
  - destruct (String.eqb_spec k' x) as [<- | Nx]; simpl.
    + destruct (String.eqb_spec k k'); [contradiction |].
      now apply lookup_remove_neq.
    + now rewrite IH.
Qed.

Lemma lookup_restrict (k : string) (ks : list string) (d : doc) :
  Doc.lookup k (Doc.restrict ks d) = if Doc.inb k ks then Doc.lookup k d else None.
Proof.
  induction d as [| [x v] d IH]; simpl.
  - now destruct (Doc.inb k ks).
  - destruct (Doc.inb x ks) eqn:I; simpl.
    + destruct (String.eqb_spec k x) as [-> | _]; [now rewrite I | exact IH].
    + destruct (String.eqb_spec k x) as [-> | _]; [now rewrite IH, I | exact IH].
Qed.

(** ** Grouping, sorting and limiting *)

(** The pipeline of "Combining Stages" on its sample data gives the output
    that backend.md prints. *)
Lemma samplePipeline_output (d : Mongo.database) :
  Mongo.runPipeline d Products.samplePipeline Products.sampleData =
    Ok [Products.priceGroup 20 9 2; Products.priceGroup 15 3 1].
Proof. reflexivity. Qed.



(** ** Read one, continued *)

Lemma userOk_oid (us : list doc) (u : doc) :
  forallb userOk us = true -> In u us -> exists o, oidOf u = Some o.
Proof.
  intros H Hin. rewrite forallb_forall in H. specialize (H u Hin).
  unfold userOk in H. destruct (oidOf u) as [o |]; [now exists o | discriminate].
Qed.

Lemma findOne_byOid (o : N) (us : list doc) :
  forallb userOk us = true ->
  Mongo.findOne (Mongo.CEq "_id" (VOid o)) us = find (hasOid o) us.
Proof.
  intros H. apply find_ext_in. intros u Hin.
  destruct (userOk_oid us u H Hin) as [o' Ho']. now apply (matches_byId o o').
Qed.

Lemma populate_inlineCreator (us : list doc) (d : doc) :
  forallb userOk us = true ->
  Mongoose.populate "createdBy" ["name"] us d = ReadOne.inlineCreator ["_id"; "name"] us d.
Proof.
  intros H. unfold Mongoose.populate, ReadOne.inlineCreator.
  destruct (Doc.lookup "createdBy" d) as [[| | | | o | | |] |]; try reflexivity.
  now rewrite (findOne_byOid o us H).
Qed.

Lemma inlineCreator_name (keep : list string) (us : list doc) (d : doc) :
  Doc.lookup "name" (ReadOne.inlineCreator keep us d) = Doc.lookup "name" d.
Proof.
  unfold ReadOne.inlineCreator.
  destruct (Doc.lookup "createdBy" d) as [[| | | | o | | |] |]; try reflexivity.
  destruct (find (hasOid o) us); apply lookup_set_neq; discriminate.
Qed.

(** C8, as the code has it.  With names and references that are not lists
    and users identified by an [ObjectId], [GET /books/:bookId] answers
    with the first book whose name is the path parameter, without its
    [name] field and with [createdBy] replaced by the user it refers to,
    restricted to [_id] and [name]; it answers 404 exactly when no book
    has that name. *)
Theorem updateOnlyOneBook_reads_by_name (req : request) (s : store) :
  schemaOk s = true ->
  updateOnlyOneBook req s =
    (match ReadOne.readByName ["_id"; "name"] (Mongo.users (db s)) (Mongo.books (db s))
             (bookId req) with
     | Some b => Respond 200 (VDoc b)
     | None => Respond 404 notFound
     end, s) /\
  (forall b,
     ReadOne.readByName ["_id"; "name"] (Mongo.users (db s)) (Mongo.books (db s))
       (bookId req) = Some b ->
     Doc.lookup "name" b = None) /\
  (updateOnlyOneBook req s = (Respond 404 notFound, s) <->
   existsb (ReadOne.named (bookId req)) (Mongo.books (db s)) = false).
Proof.
  intros W. unfold schemaOk in W. apply andb_prop in W as [WU WB].
  assert (E : updateOnlyOneBook req s =
    (match ReadOne.readByName ["_id"; "name"] (Mongo.users (db s)) (Mongo.books (db s))
             (bookId req) with
     | Some b => Respond 200 (VDoc b)
     | None => Respond 404 notFound
     end, s)).
  { unfold updateOnlyOneBook, Mongoose.Book_findOne_byName, ReadOne.readByName.
    rewrite (findOne_named _ _ WB).
    destruct (find (ReadOne.named (bookId req)) (Mongo.books (db s))) as [b |]; simpl.
    - now rewrite (populate_inlineCreator _ _ WU).
    - reflexivity. }
  split; [exact E | split].
  - unfold ReadOne.readByName. intros b.
    destruct (find _ _) as [b0 |]; simpl; [| discriminate].
    intros [= <-]. rewrite inlineCreator_name. apply lookup_remove_eq.
  - rewrite E, <- find_none_existsb. unfold ReadOne.readByName.
    destruct (find _ _); simpl; split; congruence.
Qed.

Lemma updateOnlyOneBook_reads_by_name_witness :
  updateOnlyOneBook (Example.get "dune") Example.library =
    (Respond 200 (VDoc [("_id", VOid 10);
                        ("createdBy", VDoc [("_id", VOid 1); ("name", VStr "alice")]);
                        ("createdAt", VDate 1); ("updatedAt", VDate 1); ("__v", VNum 0)]),
     Example.library).
Proof.
  apply (proj1 (updateOnlyOneBook_reads_by_name (Example.get "dune") Example.library eq_refl)).
Defined.

(** C8 fails as stated in one point: the user put in place of the
    reference is not restricted to its name, it keeps its [_id]. *)
Lemma updateOnlyOneBook_keeps_user_id :
  ReadOne.readByName ["name"] (Mongo.users (db Example.library))
    (Mongo.books (db Example.library)) "dune" =
    Some [("_id", VOid 10); ("createdBy", VDoc [("name", VStr "alice")]);
          ("createdAt", VDate 1); ("updatedAt", VDate 1); ("__v", VNum 0)] /\
  fst (updateOnlyOneBook (Example.get "dune") Example.library) <>
    Respond 200 (VDoc [("_id", VOid 10); ("createdBy", VDoc [("name", VStr "alice")]);
                       ("createdAt", VDate 1); ("updatedAt", VDate 1); ("__v", VNum 0)]).
Proof. split; [reflexivity | discriminate]. Qed.

(** ** The list view *)

Lemma mapM_ok_in {A B : Type} (f : A -> result B) (g : A -> B) (l : list A) :
  (forall a, In a l -> f a = Ok (g a)) -> mapM f l = Ok (map g l).
Proof.
  induction l as [| a l IH]; intros H; [reflexivity |].
  simpl. rewrite (H a (or_introl eq_refl)). cbn [bind].
  rewrite IH; [reflexivity |]. intros x Hx. apply H. now right.
Qed.

Lemma lookupMatches_refersTo (b u : doc) :
  scalarField "createdBy" b = true -> userOk u = true ->
  Mongo.lookupMatches "_id" (Doc.lookup "createdBy" b) u = ListView.refersTo b u.
Proof.
  unfold scalarField, userOk, oidOf, ListView.refersTo, Mongo.lookupMatches.
  intros Hb Hu.
  destruct (Doc.lookup "_id" u) as [[| | | | o | | |] |] eqn:Eu; try discriminate.
  destruct (Doc.lookup "createdBy" b) as [r |]; cbn; rewrite Eu.
  - destruct r; try discriminate; cbn; now rewrite ?orb_false_r.
  - reflexivity.
Qed.

Lemma scalarField_restrict (u : doc) :
  scalarField "name" u = true -> scalarField "name" (Doc.restrict ["_id"; "name"] u) = true.
Proof. unfold scalarField. now rewrite lookup_restrict. Qed.

Lemma joinStage_ok (us : list doc) (b : doc) :
  forallb userOk us = true -> joinedOk (ListView.joinStage ["_id"; "name"] us b).
Proof.
  intros H. exists (map (Doc.restrict ["_id"; "name"]) (filter (ListView.refersTo b) us)).
  unfold ListView.joinStage. rewrite lookup_set_eq, map_map. split; [reflexivity |].
  apply Forall_map, Forall_forall. intros u Hu. apply filter_In in Hu as [Hu _].
  apply scalarField_restrict. rewrite forallb_forall in H. specialize (H u Hu).
  unfold userOk in H. now destruct (oidOf u).
Qed.

Lemma lookup_stage (s : store) :
  schemaOk s = true ->
  Mongo.runStage (db s)
    (Mongo.Lookup "users" "createdBy" "_id" "createdBy" [Mongo.Project ["name"]])
    (Mongo.books (db s)) =
  Ok (map (ListView.joinStage ["_id"; "name"] (Mongo.users (db s))) (Mongo.books (db s))).
Proof.
  intros W. unfold schemaOk in W. apply andb_prop in W as [WU WB].
  cbn [Mongo.runStage]. apply mapM_ok_in. intros b Hb.
  cbn. unfold ListView.joinStage. do 3 f_equal. rewrite map_map.
  f_equal. apply filter_ext_in. intros u Hu.
  rewrite forallb_forall in WU, WB. apply lookupMatches_refersTo.
  - specialize (WB b Hb). unfold bookOk in WB. now apply andb_prop in WB.
  - now apply WU.
Qed.

Lemma names_reached (q : value) (P : value -> bool) (us : list doc) :
  Forall (fun u => scalarField "name" u = true) us ->
  (forall u, scalarField "name" u = true ->
             Mongo.matchesEq q (Doc.lookup "name" u) = P (VDoc u)) ->
  existsb (Mongo.matchesEq q)
    (flat_map (fun x => match x with
                        | VDoc d' => Mongo.elements ["name"] d'
                        | _ => []
                        end) (map VDoc us)) =
  existsb P (map VDoc us).
Proof.
  intros F HP. induction F as [| u us Hu F IH]; [reflexivity |].
  cbn [map flat_map existsb]. rewrite existsb_app, IH, <- (HP u Hu).
  f_equal. unfold scalarField in Hu. cbn.
  destruct (Doc.lookup "name" u) as [[| | | | | | |] |]; try discriminate; cbn;
    now rewrite ?orb_false_r.
Qed.

Lemma match_stage (name : option string) (d : doc) :
  joinedOk d ->
  Mongo.matches
    (Mongo.CEq "createdBy.name" (Mongo.serialize (option_map VStr name))) d =
  ListView.filterStage name d.
Proof.
  intros (us & E & F).
  unfold ListView.filterStage, ListView.joined. cbn. rewrite E.
  destruct name as [n |]; cbn [option_map Mongo.serialize]; apply names_reached; try assumption.
  - intros u _. unfold ListView.hasName.
    destruct (Doc.lookup "name" u) as [[| | | m | | | |] |]; try reflexivity.
    cbn. apply String.eqb_sym.
  - intros u _. unfold ListView.lacksName.
    now destruct (Doc.lookup "name" u) as [[| | | | | | |] |].
Qed.

Lemma set_stage (d : doc) :
  joinedOk d ->
  (v <- Mongo.evalExpr (Mongo.EFirst (Mongo.EField "createdBy")) d ;;
   Ok (Doc.assign "createdBy" v d)) = Ok (ListView.collapseStage d).
Proof.
  intros (us & E & _). unfold ListView.collapseStage, ListView.joined. cbn. rewrite E.
  now destruct us.
Qed.

(** [listBook] is the join, the filter and the collapse of the
    specification, in this order, with joined users that keep their [_id]
    and their [name]; it answers 200 in every store that fits the schemas. *)
Lemma listBook_refines (req : request) (s : store) :
  schemaOk s = true ->
  listBook req s =
    (Respond 200
       (VArr (map VDoc
                (ListView.listWithRelationFilter ["_id"; "name"]
                   (Mongo.users (db s)) (Mongo.books (db s)) (assoc "name" (query req))))),
     s).
Proof.
  intros W.
  assert (WU : forallb userOk (Mongo.users (db s)) = true)
    by (unfold schemaOk in W; now apply andb_prop in W).
  unfold listBook, Mongo.aggregate, listBookPipeline, ListView.listWithRelationFilter.
  change (Mongo.collection (db s) "books") with (Mongo.books (db s)).
  cbn [Mongo.runPipeline]. rewrite (lookup_stage s W). cbn [bind Mongo.runStage].
  assert (J : forall d,
             In d (map (ListView.joinStage ["_id"; "name"] (Mongo.users (db s)))
                     (Mongo.books (db s))) -> joinedOk d).
  { intros d Hd. apply in_map_iff in Hd as (b & <- & _). now apply joinStage_ok. }
  rewrite (filter_ext_in _ (ListView.filterStage (assoc "name" (query req))));
    [| intros d Hd; apply match_stage; now apply J].
  rewrite (mapM_ok_in _ ListView.collapseStage);
    [reflexivity |].
  intros d Hd. apply set_stage, J. now apply filter_In in Hd.
Qed.

Lemma keys_restrict (ks : list string) (d : doc) (k : string) :
  In k (Doc.keys (Doc.restrict ks d)) -> In k ks.
Proof.
  unfold Doc.keys, Doc.restrict. intros H.
  apply in_map_iff in H as ([k' v] & <- & Hin).
  apply filter_In in Hin as [_ Hk]. simpl in *.
  unfold Doc.inb in Hk. apply existsb_exists in Hk as (x & Hx & E).
  apply String.eqb_eq in E. now subst.
Qed.

Lemma joined_joinStage (keep : list string) (us : list doc) (b : doc) :
  ListView.joined (ListView.joinStage keep us b) =
  map (fun u => VDoc (Doc.restrict keep u)) (filter (ListView.refersTo b) us).
Proof. unfold ListView.joined, ListView.joinStage. now rewrite lookup_set_eq. Qed.

Lemma filter_none {A : Type} (f : A -> bool) (l : list A) :
  (forall a, In a l -> f a = false) -> filter f l = [].
Proof.
  induction l as [| a l IH]; intros H; [reflexivity |].
  simpl. rewrite (H a (or_introl eq_refl)). apply IH. intros x Hx. apply H. now right.
Qed.

Lemma refersTo_same_oid (b u u' : doc) (o : N) :
  ListView.refersTo b u = true -> ListView.refersTo b u' = true ->
  oidOf u = Some o -> hasOid o u' = true.
Proof.
  intros R R' Ho.
  apply refersTo_spec in R as (r & Hb & Hu), R' as (r' & Hb' & Hu').
  rewrite Hb in Hb'. injection Hb' as <-.
  unfold oidOf in Ho. rewrite Hu in Ho.
  unfold hasOid, oidOf. rewrite Hu'.
  destruct r; try discriminate. injection Ho as ->. apply N.eqb_refl.
Qed.

Lemma joined_at_most_one (b : doc) (us : list doc) :
  uniqueIds us = true ->
  filter (ListView.refersTo b) us = [] \/ exists u, filter (ListView.refersTo b) us = [u].
Proof.
  induction us as [| u us IH]; intros U; [now left |].
  pose proof (uniqueIds_tail _ _ U) as U'.
  cbn [uniqueIds] in U. destruct (oidOf u) as [o |] eqn:Ho; [| discriminate].
  apply andb_prop in U as [N _]. apply negb_true_iff in N.
  cbn [filter]. destruct (ListView.refersTo b u) eqn:R; [| now apply IH].
  right. exists u. f_equal. apply filter_none. intros u' Hu'.
  destruct (ListView.refersTo b u') eqn:R'; [| reflexivity].
  assert (existsb (hasOid o) us = true).
  { apply existsb_exists. exists u'. split; [assumption |].
    now apply (refersTo_same_oid b u u'). }
  congruence.
Qed.

Lemma kept_book_names_creator (us bs : list doc) (n : string) (d : doc) :
  uniqueIds us = true ->
  In d (ListView.listWithRelationFilter ["_id"; "name"] us bs (Some n)) ->
  exists u, Doc.lookup "createdBy" d = Some (VDoc u) /\
            Doc.lookup "name" u = Some (VStr n).
Proof.
  unfold ListView.listWithRelationFilter. intros U Hd.
  apply in_map_iff in Hd as (d' & <- & Hd').
  apply filter_In in Hd' as [Hd' F].
  apply in_map_iff in Hd' as (b & <- & _).
  unfold ListView.filterStage in F. unfold ListView.collapseStage.
  rewrite joined_joinStage in *.
  destruct (joined_at_most_one b us U) as [E | [u E]]; rewrite E in *;
    cbn [map existsb] in *; [discriminate |].
  rewrite orb_false_r in F.
  exists (Doc.restrict ["_id"; "name"] u). rewrite lookup_set_eq. split; [reflexivity |].
  unfold ListView.hasName in F.
  destruct (Doc.lookup "name" (Doc.restrict ["_id"; "name"] u)) as [[| | | m | | | |] |];
    try discriminate.
  apply String.eqb_eq in F. now subst.
Qed.

(** C1, as the code has it.  In a store that fits the schemas, [listBook]
    with the filter value [n] answers 200 with the books that the join,
    then the filter, then the collapse produce: each book is joined with
    the users whose [_id] is its [createdBy] reference, restricted to
    [_id] and [name]; the books with a joined user named exactly [n] are
    kept; the joined sequence gives way to its first element.  Each book
    returned carries one nested document with no field but [_id] and
    [name]; when the users have unique ids it is the one user the book
    refers to, and its name is [n]. *)
Theorem listBook_join_filter_collapse (req : request) (s : store) (n : string) :
  schemaOk s = true ->
  assoc "name" (query req) = Some n ->
  listBook req s =
    (Respond 200
       (VArr (map VDoc
                (ListView.listWithRelationFilter ["_id"; "name"]
                   (Mongo.users (db s)) (Mongo.books (db s)) (Some n)))),
     s) /\
  (forall d,
     In d (ListView.listWithRelationFilter ["_id"; "name"]
             (Mongo.users (db s)) (Mongo.books (db s)) (Some n)) ->
     exists u, Doc.lookup "createdBy" d = Some (VDoc u) /\
               forall k, In k (Doc.keys u) -> k = "_id" \/ k = "name") /\
  (uniqueIds (Mongo.users (db s)) = true ->
   forall d,
     In d (ListView.listWithRelationFilter ["_id"; "name"]
             (Mongo.users (db s)) (Mongo.books (db s)) (Some n)) ->
     exists u, Doc.lookup "createdBy" d = Some (VDoc u) /\
               Doc.lookup "name" u = Some (VStr n)).
Proof.
  intros W Q. split; [| split].
  - rewrite <- Q. now apply listBook_refines.
  - unfold ListView.listWithRelationFilter. intros d Hd.
    apply in_map_iff in Hd as (d' & <- & Hd').
    apply filter_In in Hd' as [Hd' F].
    apply in_map_iff in Hd' as (b & <- & _).
    unfold ListView.filterStage in F. unfold ListView.collapseStage.
    rewrite joined_joinStage in *.
    destruct (filter (ListView.refersTo b) (Mongo.users (db s))) as [| u us]; [discriminate |].
    cbn [map]. exists (Doc.restrict ["_id"; "name"] u). rewrite lookup_set_eq.
    split; [reflexivity |]. intros k Hk. apply keys_restrict in Hk.
    simpl in Hk. intuition.
  - intros U d Hd. now apply (kept_book_names_creator _ (Mongo.books (db s)) n d U).
Qed.

Lemma listBook_join_filter_collapse_witness :
  listBook (Example.listWith [("name", "alice")]) Example.library =
    (Respond 200
       (VArr [VDoc [("_id", VOid 10); ("name", VStr "dune");
                    ("createdBy", VDoc [("_id", VOid 1); ("name", VStr "alice")]);
                    ("createdAt", VDate 1); ("updatedAt", VDate 1); ("__v", VNum 0)]]),
     Example.library).
Proof.
  apply (proj1 (listBook_join_filter_collapse (Example.listWith [("name", "alice")])
                  Example.library "alice" eq_refl eq_refl)).
Defined.

(** C1 fails as stated in one point: the joined user is not projected down
    to its name only, the nested document keeps the user's [_id]. *)
Lemma listBook_keeps_user_id :
  ListView.listWithRelationFilter ["name"] (Mongo.users (db Example.library))
    (Mongo.books (db Example.library)) (Some "alice") =
    [[("_id", VOid 10); ("name", VStr "dune"); ("createdBy", VDoc [("name", VStr "alice")]);
      ("createdAt", VDate 1); ("updatedAt", VDate 1); ("__v", VNum 0)]] /\
  fst (listBook (Example.listWith [("name", "alice")]) Example.library) <>
    Respond 200
      (VArr (map VDoc
               (ListView.listWithRelationFilter ["name"] (Mongo.users (db Example.library))
                  (Mongo.books (db Example.library)) (Some "alice")))).
Proof. split; [reflexivity | discriminate]. Qed.

Lemma no_nameless_joined (us : list doc) (b : doc) :
  forallb hasStringName us = true ->
  ListView.filterStage None (ListView.joinStage ["_id"; "name"] us b) = false.
Proof.
  intros H. unfold ListView.filterStage. rewrite joined_joinStage.
  rewrite forallb_forall in H.
  induction us as [| u us IH]; [reflexivity |].
  cbn [filter]. assert (Hu := H u (or_introl eq_refl)).
  assert (IH' : existsb ListView.lacksName
                  (map (fun u0 => VDoc (Doc.restrict ["_id"; "name"] u0))
                     (filter (ListView.refersTo b) us)) = false)
    by (apply IH; intros x Hx; apply H; now right).
  destruct (ListView.refersTo b u); [| exact IH'].
  cbn [map existsb]. rewrite IH', orb_false_r.
  unfold ListView.lacksName. rewrite lookup_restrict. cbn.
  unfold hasStringName in Hu.
  now destruct (Doc.lookup "name" u) as [[| | | | | | |] |].
Qed.

(** C2, as the code has it.  Without the [name] parameter the filter stage
    compares the joined names with [null]: in a store that fits the
    schemas, [listBook] answers with the books that have a joined user
    without a name (missing or [null]), collapsed.  When every user has a
    string as its name, it answers with the empty sequence. *)
Theorem listBook_absent_name (req : request) (s : store) :
  schemaOk s = true ->
  assoc "name" (query req) = None ->
  listBook req s =
    (Respond 200
       (VArr (map VDoc
                (ListView.listWithRelationFilter ["_id"; "name"]
                   (Mongo.users (db s)) (Mongo.books (db s)) None))),
     s) /\
  (forallb hasStringName (Mongo.users (db s)) = true ->
   listBook req s = (Respond 200 (VArr []), s)).
Proof.
  intros W Q. rewrite (listBook_refines req s W), Q. split; [reflexivity |].
  intros H. unfold ListView.listWithRelationFilter.
  replace (filter _ _) with (@nil doc); [reflexivity |].
  symmetry. induction (Mongo.books (db s)) as [| b bs IH]; [reflexivity |].
  cbn [map filter]. now rewrite (no_nameless_joined _ b H).
Qed.

Lemma listBook_absent_name_witness :
  listBook (Example.listWith []) Example.library = (Respond 200 (VArr []), Example.library).
Proof.
  apply (proj2 (listBook_absent_name (Example.listWith []) Example.library eq_refl eq_refl)).
  reflexivity.
Defined.

(** C2 fails as stated: without the [name] parameter [listBook] returns no
    book of the example store, the pipeline without its filter stage returns
    all three. *)
Lemma listBook_absent_name_filters :
  assoc "name" (query (Example.listWith [])) = None /\
  fst (listBook (Example.listWith []) Example.library) = Respond 200 (VArr []) /\
  fst (listBookUnfiltered (Example.listWith []) Example.library) =
    Respond 200
      (VArr [VDoc [("_id", VOid 10); ("name", VStr "dune");
                   ("createdBy", VDoc [("_id", VOid 1); ("name", VStr "alice")]);
                   ("createdAt", VDate 1); ("updatedAt", VDate 1); ("__v", VNum 0)];
             VDoc [("_id", VOid 11); ("name", VStr "emma");
                   ("createdBy", VDoc [("_id", VOid 2); ("name", VStr "bob")]);
                   ("createdAt", VDate 2); ("updatedAt", VDate 2); ("__v", VNum 0)];
             VDoc [("_id", VOid 12); ("name", VStr "00000000000000000000000d");
                   ("createdAt", VDate 3); ("updatedAt", VDate 3); ("__v", VNum 0)]]) /\
  listBook (Example.listWith []) Example.library <>
    listBookUnfiltered (Example.listWith []) Example.library.
Proof. repeat split. discriminate. Qed.

(** ** The invariant is preserved *)




Lemma uniqueIds_snoc (n : N) (l : list doc) (b : doc) :
  uniqueIds l = true -> forallb (below n) l = true -> oidOf b = Some n ->
  uniqueIds (l ++ [b]) = true.
Proof.
  intros U B Hb. induction l as [| d l IH]; cbn [app uniqueIds].
  - now rewrite Hb.
  - cbn [uniqueIds] in U. cbn [forallb] in B. apply andb_prop in B as [Bd B].
    unfold below in Bd. destruct (oidOf d) as [o |]; [| discriminate].
    apply andb_prop in U as [U1 U2]. rewrite (IH U2 B), andb_true_r.
    rewrite existsb_app, negb_orb, U1. cbn. unfold hasOid. rewrite Hb.
    apply N.ltb_lt in Bd. rewrite orb_false_r. apply negb_true_iff, N.eqb_neq. lia.
Qed.

Lemma below_mono (n m : N) (l : list doc) :
  (n <= m)%N -> forallb (below n) l = true -> forallb (below m) l = true.
Proof.
  intros L H. rewrite forallb_forall in *. intros d Hd. specialize (H d Hd).
  unfold below in *. destruct (oidOf d); [| discriminate].
  apply N.ltb_lt in H. apply N.ltb_lt. lia.
Qed.








Ltac split_storeOk H :=
  let W := fresh "W" in let U := fresh "U" in let L := fresh "L" in
  let WU := fresh "WU" in let WB := fresh "WB" in
  pose proof H as W; unfold storeOk in W;
  apply andb_prop in W as [W L]; apply andb_prop in W as [W U];
  unfold schemaOk in W; apply andb_prop in W as [WU WB].


Lemma addBook_storeOk (req : request) (s : store) :
  storeOk s = true -> storeOk (snd (addBook req s)) = true.
Proof.
  intros H. split_storeOk H.
  unfold addBook, Mongoose.Book_create.
  destruct (Mongoose.castString "name" _) as [[[| | | n | | | |] |] |]; cbn; try exact H.
  destruct (String.eqb n ""); cbn; try exact H.
  destruct (Mongoose.castObjectId "createdBy" _) as [[[| | | | o | | |] |] |]; cbn; try exact H.
  unfold storeOk, schemaOk. cbn. rewrite WU, forallb_app, WB. cbn.
  rewrite (uniqueIds_snoc (nextOid s)); auto. cbn.
  rewrite forallb_app, (below_mono (nextOid s)); auto; [| lia]. cbn.
  unfold below. cbn. rewrite andb_true_r. apply N.ltb_lt. lia.
Qed.



(** * The rest of the code, verified *)

(** ** Create, continued *)

Lemma addBook_created (req : request) (s : store) (status : Z) (payload : value) (s' : store) :
  addBook req s = (Respond status payload, s') ->
  (status = 400 /\ s' = s) \/
  (exists n c,
     status = 200 /\
     payload = VDoc [("_id", VOid (nextOid s)); ("name", VStr n); ("createdBy", VOid c);
                     ("createdAt", VDate (clock s)); ("updatedAt", VDate (clock s));
                     ("__v", VNum 0)] /\
     s' = mkStore (Mongo.mkDatabase
                     (Mongo.books (db s) ++
                        [[("_id", VOid (nextOid s)); ("name", VStr n); ("createdBy", VOid c);
                          ("createdAt", VDate (clock s)); ("updatedAt", VDate (clock s));
                          ("__v", VNum 0)]])%list
                     (Mongo.users (db s)))
            (N.succ (nextOid s)) (clock s)).
Proof.
  unfold addBook, Mongoose.Book_create.
  destruct (Mongoose.castString "name" _) as [[[| | | n | | | |] |] |]; cbn;
    try (intros [= <- <- <-]; now left).
  destruct (String.eqb n ""); cbn; try (intros [= <- <- <-]; now left).
  destruct (Mongoose.castObjectId "createdBy" _) as [[[| | | | o | | |] |] |]; cbn;
    try (intros [= <- <- <-]; now left).
  intros [= <- <- <-]. right. now exists n, o.
Qed.

(** X2.  [addBook] refuses a body without a usable [name] (missing, [null]
    or empty) and a body without a usable [createdBy] (missing, [null] or a
    string that is not 24 hexadecimal digits): it answers 400 with a
    message and leaves the store as it was.  It never answers anything but
    200 or 400, and a 400 never changes the store. *)
Theorem addBook_refuses (req : request) (s : store) :
  (blankName (Doc.lookup "name" (body req)) ->
   exists msg, addBook req s = (Respond 400 (message msg), s)) /\
  (noReference (Doc.lookup "createdBy" (body req)) ->
   exists msg, addBook req s = (Respond 400 (message msg), s)) /\
  (exists status payload s',
     addBook req s = (Respond status payload, s') /\
     (status = 200 \/ (status = 400 /\ s' = s))).
Proof.
  split; [| split].
  - unfold blankName, addBook, Mongoose.Book_create.
    destruct (Doc.lookup "name" (body req)) as [[| | | n | | | |] |]; intros H;
      try contradiction; try subst n; cbn; eauto.
  - unfold noReference, addBook, Mongoose.Book_create.
    destruct (Mongoose.validName _) as [n | e]; cbn; [| eauto].
    destruct (Doc.lookup "createdBy" (body req)) as [[| | | c | | | |] |]; intros H;
      try contradiction; cbn; try rewrite H; cbn; eauto.
  - destruct (addBook req s) as [[status payload | r | e] s'] eqn:E.
    + exists status, payload, s'. split; [reflexivity |].
      destruct (addBook_created _ _ _ _ _ E) as [? | (n & c & -> & _)]; auto.
    + exfalso. unfold addBook in E. now destruct (Mongoose.Book_create _ _ _) as [[b t] |].
    + exfalso. unfold addBook in E. now destruct (Mongoose.Book_create _ _ _) as [[b t] |].
Qed.

Lemma filter_all {A : Type} (f : A -> bool) (l : list A) :
  (forall a, In a l -> f a = true) -> filter f l = l.
Proof.
  induction l as [| a l IH]; intros H; [reflexivity |].
  simpl. rewrite (H a (or_introl eq_refl)). f_equal. apply IH. intros x Hx. apply H. now right.
Qed.

Lemma getBookList_all (req : request) (s : store) :
  getBookList req s = (Respond 200 (VArr (map VDoc (Mongo.books (db s)))), s).
Proof.
  unfold getBookList, Mongoose.Book_find. now rewrite filter_all.
Qed.

(** X3.  What [addBook] creates, [getBookList] lists: after a create that
    answered 200 the list is the list of before, followed by the book the
    create answered with. *)
Theorem create_then_list (req req' : request) (s s' : store) (book : value) :
  addBook req s = (Respond 200 book, s') ->
  exists before,
    getBookList req' s = (Respond 200 (VArr before), s) /\
    getBookList req' s' = (Respond 200 (VArr (before ++ [book])), s').
Proof.
  intros E. exists (map VDoc (Mongo.books (db s))). rewrite !getBookList_all.
  split; [reflexivity |].
  destruct (addBook_created _ _ _ _ _ E) as [[? _] | (n & c & _ & -> & ->)]; [discriminate |].
  cbn. now rewrite map_app.
Qed.

(** ** Delete, continued *)

Lemma deleteOne_filter (o : N) (c : list doc) :
  uniqueIds c = true ->
  Mongo.deleteOne (Mongo.CEq "_id" (VOid o)) c =
    (if existsb (hasOid o) c then 1 else 0, filter (fun d => negb (hasOid o d)) c).
Proof.
  induction c as [| d c IH]; intros U; [reflexivity |].
  destruct (uniqueIds_oid _ d U (or_introl eq_refl)) as [o' Ho'].
  pose proof (uniqueIds_tail _ _ U) as Uc.
  cbn [Mongo.deleteOne existsb filter]. rewrite (matches_byId o o' d Ho').
  destruct (hasOid o d) eqn:Hd; cbn [orb negb].
  - f_equal. symmetry. apply filter_all. intros x Hx.
    cbn [uniqueIds] in U. rewrite Ho' in U. apply andb_prop in U as [U1 _].
    unfold hasOid in Hd. rewrite Ho' in Hd. apply N.eqb_eq in Hd. subst o'.
    apply negb_true_iff in U1. apply negb_true_iff.
    destruct (hasOid o x) eqn:X; [| reflexivity].
    assert (existsb (hasOid o) c = true) by (apply existsb_exists; exists x; auto).
    congruence.
  - rewrite (IH Uc). reflexivity.
Qed.

(** X4.  With books identified by unique ids, [deleteBook] takes out the
    book that has the id of the request and no other: the books left are
    the books of before without that one, in their order, the count
    reported is 1 when the id was there and 0 when it was not, and the
    users are not touched.  A parameter that is not 24 hexadecimal digits
    is answered with 400 and changes nothing. *)
Theorem deleteBook_removes_addressed (req : request) (s : store) :
  uniqueIds (Mongo.books (db s)) = true ->
  (forall o,
     Mongoose.castObjectIdString (bookId req) = Some o ->
     deleteBook req s =
       (Respond 200 (deleted (if existsb (hasOid o) (Mongo.books (db s)) then 1 else 0)),
        withBooks (filter (fun d => negb (hasOid o d)) (Mongo.books (db s))) s)) /\
  (Mongoose.castObjectIdString (bookId req) = None ->
   exists msg, deleteBook req s = (Respond 400 (message msg), s)) /\
  Mongo.users (db (snd (deleteBook req s))) = Mongo.users (db s).
Proof.
  intros U. unfold deleteBook, Mongoose.Book_deleteOne, Mongoose.byId.
  destruct (Mongoose.castObjectIdString (bookId req)) as [o |]; cbn [bind].
  - rewrite (deleteOne_filter o _ U). repeat split; try discriminate.
    intros o' [= <-]. reflexivity.
  - repeat split; try discriminate. eauto.
Qed.

Lemma below_not_has (n : N) (c : list doc) :
  forallb (below n) c = true -> existsb (hasOid n) c = false.
Proof.
  intros B. destruct (existsb (hasOid n) c) eqn:X; [| reflexivity].
  apply existsb_exists in X as (x & Hx & Ho). rewrite forallb_forall in B.
  specialize (B x Hx). unfold below, hasOid in *. destruct (oidOf x); [| discriminate].
  apply N.eqb_eq in Ho. subst. apply N.ltb_lt in B. lia.
Qed.

(** X5.  A create undone: in a store that satisfies the invariant, deleting
    the book a create has just answered with, by the id in that answer,
    reports one deletion and leaves the books and the users the store had
    before the create. *)
Theorem create_then_delete (req req' : request) (s s' : store) (book : value) :
  storeOk s = true ->
  addBook req s = (Respond 200 book, s') ->
  Mongoose.castObjectIdString (bookId req') = Some (nextOid s) ->
  exists s'',
    deleteBook req' s' = (Respond 200 (deleted 1), s'') /\
    db s'' = db s /\
    exists rest, book = VDoc (("_id", VOid (nextOid s)) :: rest).
Proof.
  intros W E Hc.
  pose proof (addBook_storeOk req s W) as W'.
  rewrite E in W'. cbn [snd] in W'.
  destruct (addBook_created _ _ _ _ _ E) as [[? _] | (n & c & _ & -> & Es)]; [discriminate |].
  assert (U' : uniqueIds (Mongo.books (db s')) = true).
  { unfold storeOk in W'. apply andb_prop in W' as [W' _]. now apply andb_prop in W'. }
  assert (B : existsb (hasOid (nextOid s)) (Mongo.books (db s)) = false).
  { apply below_not_has. unfold storeOk in W. now apply andb_prop in W. }
  unfold deleteBook, Mongoose.Book_deleteOne, Mongoose.byId. rewrite Hc. cbn [bind].
  rewrite (deleteOne_filter _ _ U'). eexists. split; [| split; [| eauto]].
  - f_equal. f_equal. subst s'. cbn [db Mongo.books]. rewrite existsb_app. cbn.
    unfold hasOid, oidOf. cbn. now rewrite N.eqb_refl, orb_true_r.
  - subst s'. cbn [withBooks db Mongo.books Mongo.users]. rewrite filter_app.
    rewrite filter_all.
    + cbn. unfold hasOid, oidOf. cbn. rewrite N.eqb_refl. cbn. rewrite app_nil_r.
      now destruct s as [[bs us] k t].
    + intros x Hx. apply negb_true_iff.
      destruct (hasOid (nextOid s) x) eqn:X; [| reflexivity].
      assert (existsb (hasOid (nextOid s)) (Mongo.books (db s)) = true)
        by (apply existsb_exists; exists x; auto).
      congruence.
Qed.

(** ** Update, continued *)

Lemma findOneAndUpdate_present (o : N) (fields : doc) (c : list doc) (b : doc) :
  uniqueIds c = true -> In b c -> oidOf b = Some o ->
  Mongo.findOneAndUpdate (Mongo.CEq "_id" (VOid o)) fields c =
    (Some (Mongo.setAll fields b),
     map (fun d => if hasOid o d then Mongo.setAll fields d else d) c).
Proof.
  induction c as [| d c IH]; intros U Hin Ho; [contradiction |].
  destruct (uniqueIds_oid _ d U (or_introl eq_refl)) as [o' Ho'].
  pose proof (uniqueIds_tail _ _ U) as Uc.
  cbn [Mongo.findOneAndUpdate map]. rewrite (matches_byId o o' d Ho').
  assert (Hb : hasOid o b = true) by (unfold hasOid; rewrite Ho; apply N.eqb_refl).
  destruct (hasOid o d) eqn:Hd.
  - cbn [uniqueIds] in U. rewrite Ho' in U. apply andb_prop in U as [U1 _].
    apply negb_true_iff in U1.
    unfold hasOid in Hd. rewrite Ho' in Hd. apply N.eqb_eq in Hd. subst o'.
    assert (None_in : forall x, In x c -> hasOid o x = false).
    { intros x Hx. destruct (hasOid o x) eqn:X; [| reflexivity].
      assert (existsb (hasOid o) c = true) by (apply existsb_exists; exists x; auto).
      congruence. }
    destruct Hin as [<- | Hin]; [| rewrite (None_in b Hin) in Hb; discriminate].
    f_equal. f_equal. rewrite <- (map_id c) at 1. apply map_ext_in.
    intros x Hx. now rewrite (None_in x Hx).
  - destruct Hin as [<- | Hin]; [congruence |].
    now rewrite (IH Uc Hin Ho).
Qed.

(** X6.  With books identified by unique ids, [updateBook] answers 400 and
    changes nothing when the parameter is not 24 hexadecimal digits or the
    body does not pass the schema cast; when the id is the id of a stored
    book and the body is a plain one, it answers 200 with that book after
    the update, and the store holds the same books in the same order with
    that one book updated. *)
Theorem updateBook_outcomes (req : request) (s : store) :
  uniqueIds (Mongo.books (db s)) = true ->
  (Mongoose.castObjectIdString (bookId req) = None ->
   exists msg, updateBook req s = (Respond 400 (message msg), s)) /\
  (forall e,
     Mongoose.castUpdate (body req) (clock s) = Throw e ->
     exists msg, updateBook req s = (Respond 400 (message msg), s)) /\
  (forall o fields b,
     plainBody (body req) = true ->
     Mongoose.castObjectIdString (bookId req) = Some o ->
     Mongoose.castUpdate (body req) (clock s) = Ok fields ->
     In b (Mongo.books (db s)) -> oidOf b = Some o ->
     updateBook req s =
       (Respond 200 (VDoc (Mongo.setAll fields b)),
        withBooks (map (fun d => if hasOid o d then Mongo.setAll fields d else d)
                     (Mongo.books (db s))) s)).
Proof.
  intros U. unfold updateBook, Mongoose.Book_findByIdAndUpdate, Mongoose.byId.
  split; [| split].
  - intros ->. cbn. eauto.
  - intros e ->. destruct (Mongoose.castObjectIdString (bookId req)); cbn; eauto.
  - intros o fields b _ -> -> Hin Ho. cbn [bind].
    now rewrite (findOneAndUpdate_present o fields _ b U Hin Ho).
Qed.


Lemma setAll_other (k : string) (fields : doc) (d : doc) :
  Forall (fun kv => fst kv <> k) fields ->
  Doc.lookup k (Mongo.setAll fields d) = Doc.lookup k d.
Proof.
  unfold Mongo.setAll. intros F. revert d.
  induction F as [| kv fields Hkv _ IH]; intros d; [reflexivity |].
  cbn [fold_left]. rewrite IH. apply lookup_set_neq. congruence.
Qed.

Lemma castUpdate_shape (body : doc) (now : Z) (fields : doc) :
  Mongoose.castUpdate body now = Ok fields ->
  exists n c,
    Mongoose.castString "name" (Doc.lookup "name" body) = Ok n /\
    Mongoose.castObjectId "createdBy" (Doc.lookup "createdBy" body) = Ok c /\
    fields = ((match n with Some v => [("name", v)] | None => [] end) ++
              (match c with Some v => [("createdBy", v)] | None => [] end) ++
              [("updatedAt", VDate now)])%list.
Proof.
  unfold Mongoose.castUpdate.
  destruct (Mongoose.castString "name" _) as [n |]; cbn [bind]; [| discriminate].
  destruct (Mongoose.castObjectId "createdBy" _) as [c |]; cbn [bind]; [| discriminate].
  intros [= <-]. now exists n, c.
Qed.


(** ** The list view, in any store *)

Lemma remove_remove (k : string) (d : doc) : Doc.remove k (Doc.remove k d) = Doc.remove k d.
Proof.
  induction d as [| [k' v] d IH]; simpl; [reflexivity |].
  destruct (String.eqb k k') eqn:E; [exact IH |]. simpl. now rewrite E, IH.
Qed.

Lemma remove_set (k : string) (v : value) (d : doc) :
  Doc.remove k (Doc.set k v d) = Doc.remove k d.
Proof.
  induction d as [| [k' v'] d IH]; simpl.
  - now rewrite String.eqb_refl.
  - destruct (String.eqb k k') eqn:E; simpl.
    + rewrite String.eqb_refl. apply remove_remove.
    + now rewrite E, IH.
Qed.

Lemma lookup_stage_any (s : store) :
  Mongo.runStage (db s)
    (Mongo.Lookup "users" "createdBy" "_id" "createdBy" [Mongo.Project ["name"]])
    (Mongo.books (db s)) =
  Ok (map (fun b =>
             Doc.set "createdBy"
               (VArr (map VDoc
                        (map (Mongo.project ["name"])
                           (filter (Mongo.lookupMatches "_id" (Doc.lookup "createdBy" b))
                              (Mongo.users (db s)))))) b)
        (Mongo.books (db s))).
Proof. cbn [Mongo.runStage]. apply mapM_ok_in. intros b _. reflexivity. Qed.

Lemma set_stage_any (d : doc) (xs : list value) :
  Doc.lookup "createdBy" d = Some (VArr xs) ->
  (v <- Mongo.evalExpr (Mongo.EFirst (Mongo.EField "createdBy")) d ;;
   Ok (Doc.assign "createdBy" v d)) = Ok (ListView.collapseStage d).
Proof.
  intros E. unfold ListView.collapseStage, ListView.joined. cbn. rewrite E. now destruct xs.
Qed.

(** X8.  [listBook] answers 200 in every store and for every request: its
    pipeline cannot fail.  It returns at most as many documents as there
    are books, each a stored book in which nothing but [createdBy] differs;
    [createdBy] is then a nested document or is absent, never the sequence
    and never the bare reference.  It leaves the store as it was. *)
Theorem listBook_always_answers (req : request) (s : store) :
  exists docs,
    listBook req s = (Respond 200 (VArr (map VDoc docs)), s) /\
    (length docs <= length (Mongo.books (db s)))%nat /\
    forall d, In d docs ->
      (exists b, In b (Mongo.books (db s)) /\
                 Doc.remove "createdBy" d = Doc.remove "createdBy" b) /\
      (Doc.lookup "createdBy" d = None \/ exists u, Doc.lookup "createdBy" d = Some (VDoc u)).
Proof.
  unfold listBook, Mongo.aggregate, listBookPipeline.
  change (Mongo.collection (db s) "books") with (Mongo.books (db s)).
  cbn [Mongo.runPipeline]. rewrite (lookup_stage_any s). cbn [bind Mongo.runStage].
  set (J := fun b => Doc.set "createdBy"
               (VArr (map VDoc
                        (map (Mongo.project ["name"])
                           (filter (Mongo.lookupMatches "_id" (Doc.lookup "createdBy" b))
                              (Mongo.users (db s)))))) b).
  set (m := Mongo.matches _).
  rewrite (mapM_ok_in _ ListView.collapseStage).
  - exists (map ListView.collapseStage (filter m (map J (Mongo.books (db s))))).
    split; [reflexivity | split].
    + rewrite length_map. etransitivity; [apply filter_length_le |]. now rewrite length_map.
    + intros d Hd. apply in_map_iff in Hd as (d' & <- & Hd').
      apply filter_In in Hd' as [Hd' _]. apply in_map_iff in Hd' as (b & <- & Hb).
      unfold ListView.collapseStage, ListView.joined, J. rewrite lookup_set_eq.
      destruct (filter _ (Mongo.users (db s))) as [| u us]; cbn [map].
      * split; [| left; apply lookup_remove_eq].
        exists b. split; [assumption |]. now rewrite remove_remove, remove_set.
      * split; [| right; exists (Mongo.project ["name"] u); apply lookup_set_eq].
        exists b. split; [assumption |]. now rewrite !remove_set.
  - intros d Hd. apply filter_In in Hd as [Hd _]. apply in_map_iff in Hd as (b & <- & _).
    apply (set_stage_any _ (map VDoc
                        (map (Mongo.project ["name"])
                           (filter (Mongo.lookupMatches "_id" (Doc.lookup "createdBy" b))
                              (Mongo.users (db s)))))).
    unfold J. apply lookup_set_eq.
Qed.

(** ** The route table *)

Lemma sameSegments_add (p : string) :
  Router.sameSegments ["add"] [p] = String.eqb "add" (Router.toLowerCase p).
Proof. cbn. apply andb_true_r. Qed.

Lemma sameSegments_list (p : string) :
  Router.sameSegments ["list"] [p] = String.eqb "list" (Router.toLowerCase p).
Proof. cbn. apply andb_true_r. Qed.

(** X9.  Where the router of the books sends a request.  [GET] on one
    segment goes to [listBook] when the segment is [list] in any case, and
    to the read-one handler with the segment as its parameter otherwise, [add]
    included; [DELETE] and [PATCH] on one segment always go to [deleteBook]
    and [updateBook]; [POST] is taken on [add] only, and there by the hook
    before [addBook]; [GET] on the root goes to [getBookList]; no route
    takes a path of two or more segments. *)
Theorem bookRouter_table (p q : string) (rest : list string) (m : Router.method) :
  Router.bookRouter Router.GET [] = Some (Router.onBookId getBookList None) /\
  Router.bookRouter Router.GET [p] =
    Some (if String.eqb "list" (Router.toLowerCase p)
          then Router.onBookId listBook None
          else Router.onBookId updateOnlyOneBook (Some p)) /\
  Router.bookRouter Router.DELETE [p] = Some (Router.onBookId deleteBook (Some p)) /\
  Router.bookRouter Router.PATCH [p] = Some (Router.onBookId updateBook (Some p)) /\
  Router.bookRouter Router.POST [p] =
    (if String.eqb "add" (Router.toLowerCase p)
     then Some (Router.onBookId (chain middle addBook) None) else None) /\
  Router.bookRouter Router.PUT [p] = None /\
  Router.bookRouter m (p :: q :: rest) = None.
Proof.
  unfold Router.bookRouter, Router.bookRoutes.
  cbn [Router.dispatch Router.matchPattern Router.method_eqb].
  rewrite !sameSegments_add, !sameSegments_list.
  cbn [Router.sameSegments]. rewrite ?andb_false_r.
  repeat split;
    try (destruct (String.eqb "add" (Router.toLowerCase p));
         destruct (String.eqb "list" (Router.toLowerCase p)); reflexivity).
Qed.

(** X10.  The hook guards create only.  A plain body whose [name] is
    ["book1"] is refused on [POST /add], and the same body is accepted on
    [PATCH /:bookId]: with books identified by unique ids, the book that
    has the id of the path is then stored under the name ["book1"]. *)
Theorem hook_guards_create_only (req : request) (s : store) (id : string) (o : N)
    (b fields : doc) :
  uniqueIds (Mongo.books (db s)) = true ->
  In b (Mongo.books (db s)) -> oidOf b = Some o ->
  Mongoose.castObjectIdString id = Some o ->
  plainBody (body req) = true ->
  Doc.lookup "name" (body req) = Some (VStr "book1") ->
  Mongoose.castUpdate (body req) (clock s) = Ok fields ->
  (exists h, Router.bookRouter Router.POST ["add"] = Some h /\
             h req s = (NextError "invalid request", s)) /\
  (exists h book s',
     Router.bookRouter Router.PATCH [id] = Some h /\
     h req s = (Respond 200 (VDoc book), s') /\
     Doc.lookup "name" book = Some (VStr "book1") /\
     oidOf book = Some o /\
     In book (Mongo.books (db s'))).
Proof.
  intros U Hin Ho Hc _ Hn Hf. split.
  - eexists. split; [reflexivity |].
    unfold Router.onBookId, postAdd, chain, middle. now rewrite Hn.
  - exists (Router.onBookId updateBook (Some id)), (Mongo.setAll fields b).
    eexists. split; [| split; [| split; [| split]]].
    + unfold Router.bookRouter, Router.bookRoutes.
      cbn [Router.dispatch Router.matchPattern Router.method_eqb].
      rewrite sameSegments_add, sameSegments_list.
      now destruct (String.eqb "add" _), (String.eqb "list" _).
    + unfold Router.onBookId, updateBook, Mongoose.Book_findByIdAndUpdate, Mongoose.byId.
      cbn [Router.withBookId bookId body]. rewrite Hc. cbn [bind]. rewrite Hf. cbn [bind].
      rewrite (findOneAndUpdate_present o fields _ b U Hin Ho). reflexivity.
    + destruct (castUpdate_shape _ _ _ Hf) as (n & c & En & Ec & ->).
      rewrite Hn in En. cbn in En. injection En as <-.
      unfold Mongo.setAll. cbn [app fold_left fst snd].
      fold (Mongo.setAll ((match c with Some v0 => [("createdBy", v0)] | None => [] end) ++
                          [("updatedAt", VDate (clock s))])%list
              (Doc.set "name" (VStr "book1") b)).
      rewrite setAll_other; [apply lookup_set_eq |].
      destruct c; repeat constructor; cbn; discriminate.
    + destruct (castUpdate_shape _ _ _ Hf) as (n & c & En & Ec & ->).
      unfold oidOf. rewrite setAll_other; [exact Ho |].
      destruct n, c; repeat constructor; cbn; discriminate.
    + cbn [withBooks db Mongo.books]. apply in_map_iff. exists b. split; [| assumption].
      unfold hasOid. now rewrite Ho, N.eqb_refl.
Qed.

(** ** Sorting *)

Lemma compareValue_antisym (a b : option value) :
  Mongo.compareValue a b = CompOpp (Mongo.compareValue b a).
Proof.
  destruct a as [[| x | x | x | x | x | x | x] |], b as [[| y | y | y | y | y | y | y] |];
    try reflexivity; cbn.
  - now destruct x, y.
  - apply Z.compare_antisym.
  - apply String.compare_antisym.
  - apply N.compare_antisym.
  - apply Z.compare_antisym.
Qed.

Lemma sortsBefore_total (key : string) (direction : Z) (x y : doc) :
  Mongo.sortsBefore key direction x y = false -> Mongo.sortsBefore key direction y x = true.
Proof.
  unfold Mongo.sortsBefore. rewrite (compareValue_antisym (Doc.lookup key y)).
  destruct (Mongo.compareValue (Doc.lookup key x) (Doc.lookup key y)); cbn; lia.
Qed.

Lemma sortInsert_perm (key : string) (direction : Z) (x : doc) (l : list doc) :
  Permutation (x :: l) (Mongo.sortInsert key direction x l).
Proof.
  induction l as [| y l IH]; cbn; [reflexivity |].
  destruct (Mongo.sortsBefore key direction x y); [reflexivity |].
  etransitivity; [apply perm_swap |]. now constructor.
Qed.

Lemma sortInsert_sorted (key : string) (direction : Z) (x : doc) (l : list doc) :
  Sorted (fun a b => Mongo.sortsBefore key direction a b = true) l ->
  Sorted (fun a b => Mongo.sortsBefore key direction a b = true)
    (Mongo.sortInsert key direction x l).
Proof.
  induction 1 as [| y l S IH H]; cbn; [repeat constructor |].
  destruct (Mongo.sortsBefore key direction x y) eqn:E.
  - repeat constructor; assumption.
  - constructor; [exact IH |].
    destruct H as [| z l' Hz]; cbn.
    + constructor. now apply sortsBefore_total.
    + destruct (Mongo.sortsBefore key direction x z); constructor;
        [now apply sortsBefore_total | exact Hz].
Qed.

(** X11.  [$sort] rearranges and orders: the output holds the documents of
    the input, each as often as the input, and every document sorts before
    its successor.  On a key whose values are numbers that means: not
    above it when the direction is 1, not below it when it is -1. *)
Theorem sort_orders (key : string) (direction : Z) (l : list doc) :
  Permutation l (Mongo.sort key direction l) /\
  Sorted (fun a b => Mongo.sortsBefore key direction a b = true) (Mongo.sort key direction l) /\
  (forall x y a b,
     Doc.lookup key x = Some (VNum a) -> Doc.lookup key y = Some (VNum b) ->
     (Mongo.sortsBefore key 1 x y = true <-> a <= b) /\
     (Mongo.sortsBefore key (-1) x y = true <-> b <= a)).
Proof.
  split; [| split].
  - unfold Mongo.sort. induction l as [| x l IH]; cbn; [constructor |].
    etransitivity; [| apply sortInsert_perm]. now constructor.
  - unfold Mongo.sort. induction l as [| x l IH]; cbn; [constructor |].
    now apply sortInsert_sorted.
  - intros x y a b Hx Hy. unfold Mongo.sortsBefore. rewrite Hx, Hy. cbn.
    destruct (Z.compare_spec a b); cbn; split; split; intros; try lia; try discriminate;
      reflexivity.
Qed.

(** ** Grouping *)

Lemma groupInsert_keeps (k : value) (q : Z) (groups : list (value * list Z)) :
  Forall pairOfTotals groups -> NoDup (map fst groups) ->
  Forall pairOfTotals (Mongo.groupInsert k [q; 1] groups) /\
  NoDup (map fst (Mongo.groupInsert k [q; 1] groups)) /\
  total 0 (Mongo.groupInsert k [q; 1] groups) = total 0 groups + q /\
  total 1 (Mongo.groupInsert k [q; 1] groups) = total 1 groups + 1 /\
  (forall g, In g (Mongo.groupInsert k [q; 1] groups) ->
             fst g = k \/ In (fst g) (map fst groups)).
Proof.
  induction groups as [| [k' totals] groups IH]; intros F N.
  - cbn. repeat split; try lia.
    + repeat constructor. exists q, 1. split; [reflexivity | lia].
    + repeat constructor. intros [].
    + intros g [<- | []]. now left.
  - inversion F as [| ? ? (a & c & Et & Hc) F']; subst. cbn in Et. subst totals.
    inversion N as [| ? ? Nk N']; subst.
    cbn [Mongo.groupInsert]. destruct (value_eqb k k') eqn:E.
    + cbn. repeat split; try lia.
      * constructor; [| assumption]. exists (a + q), (c + 1). split; [reflexivity | lia].
      * assumption.
      * intros g [<- | Hg]; right; cbn; [now left | right; now apply in_map].
    + destruct (IH F' N') as (I1 & I2 & I3 & I4 & I5). cbn. repeat split.
      * constructor; [| assumption]. exists a, c. now split.
      * constructor; [| assumption]. intros Hin. apply in_map_iff in Hin as (g & Eg & Hg).
        destruct (I5 g Hg) as [Hk | Hk].
        -- rewrite Eg in Hk. subst k'.
           assert (value_eqb k k = true) by now apply value_eqb_eq. congruence.
        -- rewrite Eg in Hk. contradiction.
      * unfold total in *. cbn [fold_right snd nth] in *. lia.
      * unfold total in *. cbn [fold_right snd nth] in *. lia.
      * intros g [<- | Hg]; [right; now left |].
        destruct (I5 g Hg); [now left | right; now right].
Qed.

Lemma groupFold_keeps (input : list doc) (groups : list (value * list Z)) :
  Forall pairOfTotals groups -> NoDup (map fst groups) ->
  exists groups',
    Mongo.groupFold (Mongo.EField "price")
      [("totalQuantity", Mongo.EField "quantity"); ("count", Mongo.EConst (VNum 1))]
      input groups = Ok groups' /\
    Forall pairOfTotals groups' /\ NoDup (map fst groups') /\
    total 0 groups' = total 0 groups + sumOf "quantity" input /\
    total 1 groups' = total 1 groups + Z.of_nat (length input) /\
    (forall g, In g groups' ->
               In (fst g) (map fst groups) \/
               exists x, In x input /\ fst g = Mongo.serialize (Doc.lookup "price" x)).
Proof.
  revert groups. induction input as [| d input IH]; intros groups F N.
  - exists groups. cbn. repeat split; try assumption; try lia. intros g Hg. left. now apply in_map.
  - cbn [Mongo.groupFold Mongo.evalExpr bind mapM snd Mongo.numeric].
    destruct (groupInsert_keeps (Mongo.serialize (Doc.lookup "price" d))
                (Mongo.numeric (Doc.lookup "quantity" d)) groups F N)
      as (F1 & N1 & T0 & T1 & K).
    destruct (IH _ F1 N1) as (groups' & E & F' & N' & S0 & S1 & K').
    exists groups'. rewrite E. repeat split; try assumption.
    + rewrite S0, T0. cbn [sumOf fold_right]. fold (sumOf "quantity" input). lia.
    + rewrite S1, T1. cbn [length]. lia.
    + intros g Hg. destruct (K' g Hg) as [Hk | (x & Hx & Ex)].
      * apply in_map_iff in Hk as (g0 & Eg & Hg0). destruct (K g0 Hg0) as [Hk | Hk].
        -- right. exists d. split; [now left | congruence].
        -- left. congruence.
      * right. exists x. split; [now right | assumption].
Qed.

Lemma groupDoc_shape (g : value * list Z) :
  pairOfTotals g ->
  exists q c,
    1 <= c /\
    Mongo.groupDoc [("totalQuantity", Mongo.EField "quantity"); ("count", Mongo.EConst (VNum 1))] g =
      [("_id", fst g); ("totalQuantity", VNum q); ("count", VNum c)] /\
    snd g = [q; c].
Proof.
  intros (q & c & E & Hc). exists q, c. unfold Mongo.groupDoc. now rewrite E.
Qed.

Lemma sumOf_groups (groups : list (value * list Z)) :
  Forall pairOfTotals groups ->
  sumOf "totalQuantity"
    (map (Mongo.groupDoc [("totalQuantity", Mongo.EField "quantity");
                          ("count", Mongo.EConst (VNum 1))]) groups) = total 0 groups /\
  sumOf "count"
    (map (Mongo.groupDoc [("totalQuantity", Mongo.EField "quantity");
                          ("count", Mongo.EConst (VNum 1))]) groups) = total 1 groups.
Proof.
  induction 1 as [| g groups Hg F [IH0 IH1]]; [now split |].
  destruct (groupDoc_shape g Hg) as (q & c & _ & E & Es).
  unfold sumOf, total in *. cbn [map fold_right]. rewrite E, Es, IH0, IH1.
  split; reflexivity.
Qed.

Lemma group_by_price (d : Mongo.database) (input : list doc) :
  exists groups,
    Mongo.runStage d Products.groupByPrice input =
      Ok (map (Mongo.groupDoc [("totalQuantity", Mongo.EField "quantity");
                               ("count", Mongo.EConst (VNum 1))]) groups) /\
    Forall pairOfTotals groups /\ NoDup (map fst groups) /\
    total 0 groups = sumOf "quantity" input /\
    total 1 groups = Z.of_nat (length input) /\
    (forall g, In g groups ->
               exists x, In x input /\ fst g = Mongo.serialize (Doc.lookup "price" x)).
Proof.
  destruct (groupFold_keeps input [] (Forall_nil _) (NoDup_nil _))
    as (groups & E & F & N & S0 & S1 & K).
  exists groups. unfold Products.groupByPrice. cbn [Mongo.runStage]. unfold Mongo.group.
  rewrite E. cbn [bind]. repeat split; try assumption.
  intros g Hg. destruct (K g Hg) as [[] | H]. exact H.
Qed.

(** X12.  [$group] by price with the summed quantity and the count, on any
    input: it cannot fail; no two groups have the same key, and every key
    is the price of an input document ([null] for one without a price);
    every group counts at least one document; the counts add up to the
    number of input documents and the total quantities to the sum of
    their quantities. *)
Theorem groupByPrice_accounts (d : Mongo.database) (input : list doc) :
  exists gs,
    Mongo.runStage d Products.groupByPrice input = Ok gs /\
    NoDup (map (Doc.lookup "_id") gs) /\
    sumOf "count" gs = Z.of_nat (length input) /\
    sumOf "totalQuantity" gs = sumOf "quantity" input /\
    (forall g, In g gs ->
       exists x q c,
         In x input /\ 1 <= c /\
         g = [("_id", Mongo.serialize (Doc.lookup "price" x));
              ("totalQuantity", VNum q); ("count", VNum c)]).
Proof.
  destruct (group_by_price d input) as (groups & E & F & N & S0 & S1 & K).
  eexists. split; [exact E |].
  destruct (sumOf_groups groups F) as [T0 T1]. repeat split.
  - rewrite map_map.
    assert (M : map (fun g => Doc.lookup "_id" (Mongo.groupDoc
                 [("totalQuantity", Mongo.EField "quantity");
                  ("count", Mongo.EConst (VNum 1))] g)) groups =
                map (fun g => Some (fst g)) groups) by (apply map_ext; reflexivity).
    rewrite M, <- (map_map fst Some). apply Injective_map_NoDup; [| exact N].
    intros a b. congruence.
  - congruence.
  - congruence.
  - intros g Hg. apply in_map_iff in Hg as (g0 & <- & Hg0).
    rewrite Forall_forall in F.
    destruct (groupDoc_shape g0 (F g0 Hg0)) as (q & c & Hc & Eg & _).
    destruct (K g0 Hg0) as (x & Hx & Ex).
    exists x, q, c. rewrite Eg, Ex. auto.
Qed.

(** ** The pipeline of "Combining Stages", on any collection *)

Lemma Sorted_weaken {A : Type} (R R' : A -> A -> Prop) (l : list A) :
  Sorted R l -> (forall a b, In a l -> In b l -> R a b -> R' a b) -> Sorted R' l.
Proof.
  induction 1 as [| a l S IH H]; intros W; constructor.
  - apply IH. intros x y Hx Hy. apply W; now right.
  - destruct H as [| b l' Hab]; constructor. apply W; [now left | right; now left | exact Hab].
Qed.

Lemma StronglySorted_app {A : Type} (R : A -> A -> Prop) (l1 l2 : list A) :
  StronglySorted R (l1 ++ l2) -> forall a b, In a l1 -> In b l2 -> R a b.
Proof.
  induction l1 as [| x l1 IH]; intros S a b Ha Hb; [contradiction |].
  cbn in S. apply StronglySorted_inv in S as [S F]. destruct Ha as [<- | Ha].
  - rewrite Forall_forall in F. apply F, in_or_app. now right.
  - now apply IH.
Qed.

Lemma sort_descending (l : list doc) :
  (forall g, In g l -> exists q, Doc.lookup "totalQuantity" g = Some (VNum q)) ->
  StronglySorted (fun a b => totalQuantity b <= totalQuantity a)
    (Mongo.sort "totalQuantity" (-1) l).
Proof.
  intros Num.
  assert (P : Permutation l (Mongo.sort "totalQuantity" (-1) l)).
  { unfold Mongo.sort. induction l as [| x l IH]; cbn; [constructor |].
    etransitivity; [| apply sortInsert_perm]. constructor. apply IH.
    intros g Hg. apply Num. now right. }
  apply Sorted_StronglySorted; [intros a b c; lia |].
  apply (Sorted_weaken (fun a b => Mongo.sortsBefore "totalQuantity" (-1) a b = true)).
  - unfold Mongo.sort. clear. induction l as [| x l IH]; cbn; [constructor |].
    now apply sortInsert_sorted.
  - intros a b Ha Hb.
    destruct (Num a (Permutation_in _ (Permutation_sym P) Ha)) as [qa Ea].
    destruct (Num b (Permutation_in _ (Permutation_sym P) Hb)) as [qb Eb].
    unfold totalQuantity, Mongo.sortsBefore. rewrite Ea, Eb. cbn.
    destruct (Z.compare_spec qa qb); cbn; intros; try lia; discriminate.
Qed.

Lemma matches_price_above (x : doc) (p : Z) :
  Doc.lookup "price" x = Some (VNum p) ->
  Mongo.matches (Mongo.CGt "price" (VNum 10)) x = true -> 10 < p.
Proof.
  intros E. cbn. rewrite E. cbn. rewrite orb_false_r.
  destruct (Z.compare_spec p 10); intros; try discriminate. lia.
Qed.

(** X13.  The pipeline of "Combining Stages" on any collection: it cannot
    fail; it returns the two groups with the largest total quantity (all
    groups when there are fewer), the larger first; the groups are those
    of the documents whose price is above 10, so with prices that are
    numbers every key returned is above 10. *)
Theorem samplePipeline_top_two (d : Mongo.database) (input : list doc) :
  exists groups top others,
    Mongo.runPipeline d [Mongo.Match (Mongo.CGt "price" (VNum 10)); Products.groupByPrice]
      input = Ok groups /\
    Mongo.runPipeline d Products.samplePipeline input = Ok top /\
    Permutation groups (top ++ others) /\
    length top = Nat.min 2 (length groups) /\
    StronglySorted (fun a b => totalQuantity b <= totalQuantity a) top /\
    (forall a b, In a top -> In b others -> totalQuantity b <= totalQuantity a) /\
    ((forall x, In x input -> exists p, Doc.lookup "price" x = Some (VNum p)) ->
     forall g, In g top -> exists p, Doc.lookup "_id" g = Some (VNum p) /\ 10 < p).
Proof.
  set (kept := filter (Mongo.matches (Mongo.CGt "price" (VNum 10))) input).
  destruct (group_by_price d kept) as (gs & E & F & N & S0 & S1 & K).
  set (docs := map (Mongo.groupDoc [("totalQuantity", Mongo.EField "quantity");
                                    ("count", Mongo.EConst (VNum 1))]) gs) in *.
  assert (Num : forall g, In g docs -> exists q, Doc.lookup "totalQuantity" g = Some (VNum q)).
  { intros g Hg. apply in_map_iff in Hg as (g0 & <- & Hg0). rewrite Forall_forall in F.
    destruct (groupDoc_shape g0 (F g0 Hg0)) as (q & c & _ & -> & _). now exists q. }
  pose proof (sort_descending docs Num) as SS.
  assert (P : Permutation docs (Mongo.sort "totalQuantity" (-1) docs)).
  { unfold Mongo.sort. clear. induction docs as [| x l IH]; cbn; [constructor |].
    etransitivity; [| apply sortInsert_perm]. now constructor. }
  exists docs, (firstn 2 (Mongo.sort "totalQuantity" (-1) docs)),
    (skipn 2 (Mongo.sort "totalQuantity" (-1) docs)).
  unfold Products.samplePipeline, Products.byTotalQuantityDesc.
  cbn [Mongo.runPipeline Mongo.runStage bind]. fold kept. rewrite E.
  cbn [bind Mongo.runStage Mongo.runPipeline].
  rewrite firstn_skipn. repeat split.
  - exact P.
  - rewrite length_firstn. now rewrite (Permutation_length P).
  - rewrite <- (firstn_skipn 2) in SS. revert SS. generalize (skipn 2 (Mongo.sort "totalQuantity" (-1) docs)).
    induction (firstn 2 (Mongo.sort "totalQuantity" (-1) docs)) as [| a l IH]; intros l2 SS;
      [constructor |].
    cbn in SS. apply StronglySorted_inv in SS as [S' F']. constructor; [now apply (IH l2) |].
    rewrite Forall_forall in *. intros x Hx. apply F', in_or_app. now left.
  - rewrite <- (firstn_skipn 2) in SS. apply (StronglySorted_app _ _ _ SS).
  - intros Hp g Hg.
    assert (Hg' : In g (Mongo.sort "totalQuantity" (-1) docs))
      by (rewrite <- (firstn_skipn 2); apply in_or_app; now left).
    apply (Permutation_in _ (Permutation_sym P)) in Hg'. rename Hg' into Hin. clear Hg.
    rename Hin into Hg.
    apply in_map_iff in Hg as (g0 & <- & Hg0). rewrite Forall_forall in F.
    destruct (groupDoc_shape g0 (F g0 Hg0)) as (q & c & _ & -> & _).
    destruct (K g0 Hg0) as (x & Hx & Ex). apply filter_In in Hx as [Hx Hm].
    destruct (Hp x Hx) as [p Ep]. exists p. cbn. rewrite Ex, Ep. split; [reflexivity |].
    now apply (matches_price_above x).
Qed.

(** ** The routes of the products *)

Section ProductRoutesFacts.

Variable jwt_verify : option string -> string -> result value.

Lemma protect_guarded (msg : string) :
  ProductApi.guarded jwt_verify
    (ProductApi.protect jwt_verify (fun req s => (Respond 200 (message msg), s))) msg.
Proof.
  intros req s. unfold ProductApi.protect, authMiddleware, noBearer.
  destruct (authorization req) as [h |].
  - destruct (JsString.startsWith "Bearer " h) eqn:P.
    + rewrite (startsWith_nonempty _ P). cbn [orb negb]. repeat split; try discriminate.
      * intros t e [= <-] _ ->. reflexivity.
      * intros t d [= <-] _ ->. reflexivity.
    + rewrite orb_true_r. repeat split; try reflexivity; intros t ? [= <-]; congruence.
  - repeat split; try reflexivity; discriminate.
Qed.

(** X14.  The routes of the products that change something, [POST /add],
    [PUT /update] and [DELETE /:id], are behind the auth gate: each answers
    with its message to a request whose token the verification accepts, and
    with the gate's 401 or 400 to any other.  The two [GET] routes answer
    without looking at the header; [GET] on one segment gives the details
    of the product of that name, [add] and [update] included. *)
Theorem productRoutes_guarded (p : string) :
  (exists h, ProductApi.productRouter jwt_verify Router.POST ["add"] = Some h /\
             ProductApi.guarded jwt_verify h "Product added successfully") /\
  (exists h, ProductApi.productRouter jwt_verify Router.PUT ["update"] = Some h /\
             ProductApi.guarded jwt_verify h "Product updated successfully") /\
  (exists h, ProductApi.productRouter jwt_verify Router.DELETE [p] = Some h /\
             ProductApi.guarded jwt_verify h "Product deleted successfully") /\
  ProductApi.productRouter jwt_verify Router.GET [] = Some ProductApi.getProduct /\
  ProductApi.productRouter jwt_verify Router.GET [p] = Some (ProductApi.getProductDetail p).
Proof.
  unfold ProductApi.productRouter, ProductApi.productRoutes.
  repeat split.
  - eexists. split; [reflexivity | apply protect_guarded].
  - eexists. split; [reflexivity | apply protect_guarded].
  - eexists. split; [| apply protect_guarded].
    cbn [Router.dispatch Router.matchPattern Router.method_eqb Router.sameSegments].
    now destruct (_ && _), (_ && _).
  - cbn [Router.dispatch Router.matchPattern Router.method_eqb Router.sameSegments].
    now destruct (_ && _), (_ && _).
Qed.

End ProductRoutesFacts.

Lemma productRoutes_guarded_witness :
  exists h,
    ProductApi.productRouter Example.verifyGood Router.DELETE ["42"] = Some h /\
    h (Example.withHeader "Bearer good") Example.library =
      (Respond 200 (message "Product deleted successfully"), Example.library) /\
    h (Example.withHeader "Bearer bad") Example.library =
      (Respond 400 (message "Invalid token."), Example.library) /\
    h Example.emptyRequest Example.library =
      (Respond 401 (message "Access denied. No token provided."), Example.library).
Proof.
  destruct (proj1 (proj2 (proj2 (productRoutes_guarded Example.verifyGood "42"))))
    as (h & E & G).
  exists h. split; [exact E |]. split; [| split].
  - apply (proj2 (proj2 (G (Example.withHeader "Bearer good") Example.library))
             "Bearer good" (VDoc [("id", VOid 1); ("email", VStr "alice@example.com")]));
      reflexivity.
  - apply (proj1 (proj2 (G (Example.withHeader "Bearer bad") Example.library))
             "Bearer bad" "invalid signature"); reflexivity.
  - apply (proj1 (G Example.emptyRequest Example.library)). exact I.
Defined.

(** ** Register and login *)



Section AuthFacts.

Variable isEmail : string -> bool.
Variable bcrypt_hash : string -> string.
Variable bcrypt_compare : string -> string -> bool.
Variable jwt_sign : doc -> string -> string.
Variable jwt_verify : option string -> string -> result value.

(** X15.  [registerUser] registers nobody.  It hands [username], [email] and
    [password] to the model and no [name], which the schema requires, so
    the save is refused for every body: the answer is 400 when a field is
    missing or the address is taken, and 500 otherwise, never 201, and the
    store is left as it was. *)
Theorem registerUser_registers_nobody (req : request) (s : store) :
  snd (Users.registerUser isEmail bcrypt_hash req s) = s /\
  ((exists msg, fst (Users.registerUser isEmail bcrypt_hash req s) = Respond 400 (message msg)) \/
   (exists e, fst (Users.registerUser isEmail bcrypt_hash req s) =
                Respond 500 (Users.serverError e))) /\
  (Users.truthy (Doc.lookup "username" (body req)) = true ->
   Users.truthy (Doc.lookup "email" (body req)) = true ->
   Users.truthy (Doc.lookup "password" (body req)) = true ->
   Users.User_findOne (Doc.lookup "email" (body req)) s = Ok None ->
   exists e, Users.registerUser isEmail bcrypt_hash req s =
               (Respond 500 (Users.serverError e), s)).
Proof.
  unfold Users.registerUser.
  destruct (Users.truthy (Doc.lookup "username" (body req)));
    destruct (Users.truthy (Doc.lookup "email" (body req)));
    destruct (Users.truthy (Doc.lookup "password" (body req))); cbn [negb orb];
    try (split; [reflexivity | split; [left; eexists; reflexivity | intros; discriminate]]).
  destruct (Users.User_findOne _ s) as [[u |] | e]; cbn.
  - split; [reflexivity | split; [left; eexists; reflexivity | intros; discriminate]].
  - split; [reflexivity | split; [right; eexists; reflexivity | intros; eexists; reflexivity]].
  - split; [reflexivity | split; [right; eexists; reflexivity | intros; discriminate]].
Qed.




End AuthFacts.

(** ** Create, then read by name *)

Lemma find_snoc {A : Type} (f : A -> bool) (l : list A) (a : A) :
  find f (l ++ [a]) = match find f l with
                      | Some x => Some x
                      | None => if f a then Some a else None
                      end.
Proof.
  induction l as [| x l IH]; cbn; [reflexivity |]. now destruct (f x).
Qed.

(** X18.  What [addBook] creates, read-one finds under its name, unless an
    older book has the name.  In a store that fits the schemas, after a
    create that answered 200 with a book of the name [n], [GET] with [n]
    as the parameter answers as before the create when a book was already
    named [n]; when none was, it answers with the created book, without
    its name and with its creator in place of the reference. *)
Theorem create_then_read (req req' : request) (s s' : store) (book : doc) :
  schemaOk s = true ->
  addBook req s = (Respond 200 (VDoc book), s') ->
  Doc.lookup "name" book = Some (VStr (bookId req')) ->
  (existsb (ReadOne.named (bookId req')) (Mongo.books (db s)) = true ->
   updateOnlyOneBook req' s' = (fst (updateOnlyOneBook req' s), s')) /\
  (existsb (ReadOne.named (bookId req')) (Mongo.books (db s)) = false ->
   updateOnlyOneBook req' s' =
     (Respond 200 (VDoc (ReadOne.inlineCreator ["_id"; "name"] (Mongo.users (db s))
                           (Doc.remove "name" book))), s')).
Proof.
  intros W E Hn. unfold schemaOk in W. apply andb_prop in W as [WU WB].
  destruct (addBook_created _ _ _ _ _ E) as [[? _] | (n & c & _ & Eb & ->)]; [discriminate |].
  injection Eb as ->.
  assert (WB' : forallb bookOk
                  (Mongo.books (db s) ++
                     [[("_id", VOid (nextOid s)); ("name", VStr n); ("createdBy", VOid c);
                       ("createdAt", VDate (clock s)); ("updatedAt", VDate (clock s));
                       ("__v", VNum 0)]]) = true)
    by (rewrite forallb_app, WB; reflexivity).
  assert (Nb : ReadOne.named (bookId req')
                 [("_id", VOid (nextOid s)); ("name", VStr n); ("createdBy", VOid c);
                  ("createdAt", VDate (clock s)); ("updatedAt", VDate (clock s));
                  ("__v", VNum 0)] = true)
    by (unfold ReadOne.named; rewrite Hn; apply String.eqb_refl).
  unfold updateOnlyOneBook, Mongoose.Book_findOne_byName.
  cbn [db Mongo.books Mongo.users].
  rewrite (findOne_named _ _ WB'), (findOne_named _ _ WB), find_snoc, Nb.
  split; intros H.
  - destruct (find (ReadOne.named (bookId req')) (Mongo.books (db s))) as [b |] eqn:F.
    + reflexivity.
    + apply find_none_existsb in F. congruence.
  - apply find_none_existsb in H. rewrite H. cbn [option_map].
    now rewrite (populate_inlineCreator _ _ WU).
Qed.

(** ** The statements above at concrete requests *)


Lemma addBook_refuses_witness :
  (exists msg, addBook (Example.post [("createdBy", VStr "000000000000000000000001")])
                 Example.library = (Respond 400 (message msg), Example.library)) /\
  (exists msg, addBook (Example.post [("name", VStr "ulysses"); ("createdBy", VStr "alice")])
                 Example.library = (Respond 400 (message msg), Example.library)).
Proof.
  split.
  - apply (proj1 (addBook_refuses _ Example.library)). exact I.
  - apply (proj1 (proj2 (addBook_refuses _ Example.library))). reflexivity.
Defined.

Lemma create_then_list_witness :
  exists before,
    getBookList Example.emptyRequest Example.library =
      (Respond 200 (VArr before), Example.library) /\
    getBookList Example.emptyRequest Sample.afterCreate =
      (Respond 200 (VArr (before ++ [VDoc Sample.ulyssesBook])), Sample.afterCreate).
Proof.
  apply (create_then_list Sample.ulysses Example.emptyRequest Example.library
           Sample.afterCreate (VDoc Sample.ulyssesBook)).
  reflexivity.
Defined.

Lemma deleteBook_removes_addressed_witness :
  deleteBook (Example.get "00000000000000000000000b") Example.library =
    (Respond 200 (deleted 1),
     withBooks [Example.dune; Example.orphan] Example.library).
Proof.
  apply (proj1 (deleteBook_removes_addressed (Example.get "00000000000000000000000b")
                  Example.library eq_refl) 11%N).
  reflexivity.
Defined.

Lemma create_then_delete_witness :
  exists s'',
    deleteBook (Example.get "00000000000000000000000d") Sample.afterCreate =
      (Respond 200 (deleted 1), s'') /\
    db s'' = db Example.library /\
    exists rest, VDoc Sample.ulyssesBook = VDoc (("_id", VOid (nextOid Example.library)) :: rest).
Proof.
  apply (create_then_delete Sample.ulysses (Example.get "00000000000000000000000d")
           Example.library Sample.afterCreate (VDoc Sample.ulyssesBook));
    reflexivity.
Defined.

Lemma updateBook_outcomes_witness :
  updateBook Sample.rename Example.library =
    (Respond 200
       (VDoc [("_id", VOid 10); ("name", VStr "book1"); ("createdBy", VOid 1);
              ("createdAt", VDate 1); ("updatedAt", VDate 4); ("__v", VNum 0)]),
     withBooks
       [[("_id", VOid 10); ("name", VStr "book1"); ("createdBy", VOid 1);
         ("createdAt", VDate 1); ("updatedAt", VDate 4); ("__v", VNum 0)];
        Example.emma; Example.orphan] Example.library).
Proof.
  apply (proj2 (proj2 (updateBook_outcomes Sample.rename Example.library eq_refl))
           10%N [("name", VStr "book1"); ("updatedAt", VDate 4)] Example.dune).
  - reflexivity.
  - reflexivity.
  - reflexivity.
  - simpl. auto.
  - reflexivity.
Defined.


Lemma hook_guards_create_only_witness :
  (exists h, Router.bookRouter Router.POST ["add"] = Some h /\
             h Sample.rename Example.library = (NextError "invalid request", Example.library)) /\
  (exists h book s',
     Router.bookRouter Router.PATCH ["00000000000000000000000a"] = Some h /\
     h Sample.rename Example.library = (Respond 200 (VDoc book), s') /\
     Doc.lookup "name" book = Some (VStr "book1") /\
     oidOf book = Some 10%N /\
     In book (Mongo.books (db s'))).
Proof.
  apply (hook_guards_create_only Sample.rename Example.library "00000000000000000000000a"
           10%N Example.dune [("name", VStr "book1"); ("updatedAt", VDate 4)]).
  - reflexivity.
  - simpl. auto.
  - reflexivity.
  - reflexivity.
  - reflexivity.
  - reflexivity.
  - reflexivity.
Defined.

Lemma sort_orders_witness :
  Mongo.sortsBefore "totalQuantity" (-1)
    (Products.priceGroup 10 13 2) (Products.priceGroup 20 2 1) = true <-> 2 <= 13.
Proof.
  apply (proj2 (proj2 (sort_orders "totalQuantity" (-1) []))
           (Products.priceGroup 10 13 2) (Products.priceGroup 20 2 1) 13 2);
    reflexivity.
Defined.

Lemma create_then_read_witness :
  updateOnlyOneBook (Example.get "ulysses") Sample.afterCreate =
    (Respond 200
       (VDoc [("_id", VOid 13);
              ("createdBy", VDoc [("_id", VOid 1); ("name", VStr "alice")]);
              ("createdAt", VDate 4); ("updatedAt", VDate 4); ("__v", VNum 0)]),
     Sample.afterCreate).
Proof.
  apply (proj2 (create_then_read Sample.ulysses (Example.get "ulysses") Example.library
                  Sample.afterCreate Sample.ulyssesBook eq_refl eq_refl eq_refl)).
  reflexivity.
Defined.

Lemma registerUser_registers_nobody_witness :
  exists e,
    Users.registerUser Sample.hasAt Sample.hashPlain Sample.register Example.library =
      (Respond 500 (Users.serverError e), Example.library).
Proof.
  apply (proj2 (proj2 (registerUser_registers_nobody Sample.hasAt Sample.hashPlain
                         Sample.register Example.library))); reflexivity.
Defined.


